(** * eth_tracker: a shallow embedding of the tracker app's views and forms

    The Django app [tracker] keeps Ethereum addresses, transactions and
    watchlists in a relational store and fills it from the Etherscan API.
    This file embeds, as explicit state passing over that store:
    - [fetch_transactions_from_etherscan] and [update_address_balance]
      (tracker/views.py), with Python exceptions as [py_exc] values;
    - the second (effective) [address_detail] view of tracker/views.py;
    - [AddAddressForm.clean_address] (tracker/forms.py) inside the address
      field's Django cleaning pipeline;
    - the many-to-many [add] on [AddressWatchList] (tracker/models.py);
    - the views [home] and [api_address_balance], and, in module [App], the
      logged-in views [add_address], [create_watchlist] and [dashboard] with
      [AddAddressForm], [CreateWatchListForm] and [@login_required].
    HTTP responses are inputs; the requests made are recorded in a trace. *)

From Stdlib Require Import ZArith QArith String Ascii Sorting.Sorted.
From stdpp Require Import gmap strings list fin_maps.

Open Scope Z_scope.

(* ------------------------------------------------------------------ *)
(** ** Python runtime pieces used by the views *)

(** Exceptions raised on the modelled paths. *)
Inductive py_exc :=
  | ValueError (msg : string)
  | InvalidOperation          (* decimal.InvalidOperation: ConversionSyntax *)
  | Http404.

Definition exc_bind {A B} (c : py_exc + A) (k : A -> py_exc + B) : py_exc + B :=
  match c with inl e => inl e | inr x => k x end.

Notation "'let?' x ':=' c 'in' k" := (exc_bind c (fun x => k))
  (at level 200, x name, c at level 100, k at level 200).

Definition raise_none {A} (e : py_exc) (o : option A) : py_exc + A :=
  match o with Some x => inr x | None => inl e end.

(** [str.isspace] on ASCII: \t \n \v \f \r, the separators 0x1c-0x1f, space. *)
Definition is_py_space (c : ascii) : bool :=
  match nat_of_ascii c with
  | 9 | 10 | 11 | 12 | 13 | 28 | 29 | 30 | 31 | 32 => true
  | _ => false
  end%nat.

Fixpoint drop_ws (l : list ascii) : list ascii :=
  match l with
  | c :: r => if is_py_space c then drop_ws r else l
  | [] => []
  end.

(** [str.strip()] *)
Definition py_strip_list (l : list ascii) : list ascii := rev (drop_ws (rev (drop_ws l))).

Definition py_strip (s : string) : string :=
  string_of_list_ascii (py_strip_list (list_ascii_of_string s)).

(** [str.lower()] on ASCII. *)
Definition lower_char (c : ascii) : ascii :=
  let n := nat_of_ascii c in
  if (65 <=? n)%nat && (n <=? 90)%nat then ascii_of_nat (n + 32) else c.

Definition lower (s : string) : string :=
  string_of_list_ascii (map lower_char (list_ascii_of_string s)).

Definition digit_val (c : ascii) : option Z :=
  let n := nat_of_ascii c in
  if (48 <=? n)%nat && (n <=? 57)%nat then Some (Z.of_nat (n - 48)) else None.

(** Decimal digits, a single '_' allowed between two digits (PEP 515). *)
Fixpoint digits_acc (acc : Z) (prev_us : bool) (l : list ascii) : option Z :=
  match l with
  | [] => if prev_us then None else Some acc
  | c :: r =>
      if ascii_dec c "_" then (if prev_us then None else digits_acc acc true r)
      else match digit_val c with
           | Some d => digits_acc (10 * acc + d) false r
           | None => None
           end
  end.

Definition parse_digits (l : list ascii) : option Z :=
  match l with
  | c :: _ => match digit_val c with Some _ => digits_acc 0 false l | None => None end
  | [] => None
  end.

(** [int(s)] for a string argument: surrounding whitespace, an optional
    sign, then decimal digits; [None] where Python raises ValueError. *)
Definition py_int (s : string) : option Z :=
  match py_strip_list (list_ascii_of_string s) with
  | "-"%char :: r => option_map Z.opp (parse_digits r)
  | "+"%char :: r => parse_digits r
  | l => parse_digits l
  end.

(** [Decimal(s)] for the integer literal forms (the syntax [int] accepts),
    giving the integer value. The fraction, exponent, NaN and Infinity
    literal forms are not part of this model: they yield [None] here. *)
Definition decimal_of_string (s : string) : option Z := py_int s.

(** Decimal division [Decimal(a) / Decimal(10**e)] in the default context
    (prec = 28, ROUND_HALF_EVEN): the exact quotient rounded to 28
    significant digits. Dividing by a power of ten only shifts the point, so
    the significant digits are those of [a]: [excess_digits] counts how many
    digits of [|a|] exceed the precision, and those are rounded away. *)
Definition dec_prec : Z := 28.

Fixpoint excess_digits (fuel : nat) (m : Z) : Z :=
  match fuel with
  | O => 0
  | S f => if m <? 10 ^ dec_prec then 0 else 1 + excess_digits f (m / 10)
  end.

Definition round_half_even_div (m d : Z) : Z :=
  let q := m / d in
  let r := m mod d in
  if 2 * r <? d then q
  else if d <? 2 * r then q + 1
  else if Z.even q then q else q + 1.

Definition dec_div_pow10 (a e : Z) : Q :=
  let m := Z.abs a in
  let k := excess_digits (S (Z.to_nat (Z.log2 m))) m in
  Qmake (Z.sgn a * round_half_even_div m (10 ^ k) * 10 ^ k) (Z.to_pos (10 ^ e)).

(** [datetime.fromtimestamp(t)] accepts years 1..9999; the zone is taken as
    UTC, so the stored instant is [t] seconds since the epoch. *)
Definition fromtimestamp (t : Z) : option Z :=
  if (-62135596800 <=? t) && (t <=? 253402300799) then Some t else None.

(* ------------------------------------------------------------------ *)
(** ** The relational store (tracker/models.py) *)

(** [EthereumAddress]; the table is keyed by its unique [address] string. *)
Record EthereumAddress := {
  label : string;
  balance : Q;
  last_updated : Z;
  is_contract : bool
}.

(** [Transaction]; the table is keyed by its unique [hash]; the two foreign
    keys are held as the referenced addresses' [address] strings. *)
Record Transaction := {
  from_address : string;
  to_address : string;
  value : Q;
  gas_price : Z;
  gas_used : Z;
  block_number : Z;
  timestamp : Z;
  status : bool
}.

Record db := {
  addresses : gmap string EthereumAddress;
  transactions : gmap string Transaction
}.

Definition set_addresses (m : gmap string EthereumAddress) (st : db) : db :=
  {| addresses := m; transactions := transactions st |}.

Definition set_transactions (m : gmap string Transaction) (st : db) : db :=
  {| addresses := addresses st; transactions := m |}.

(** A fresh [EthereumAddress] row: the model's field defaults. *)
Definition new_address_row (now : Z) : EthereumAddress :=
  {| label := ""; balance := 0%Q; last_updated := now; is_contract := false |}.

(** [EthereumAddress.objects.get_or_create(address=a)] *)
Definition get_or_create_address (st : db) (a : string) (now : Z) : db :=
  match addresses st !! a with
  | Some _ => st
  | None => set_addresses (<[a := new_address_row now]> (addresses st)) st
  end.

(* ------------------------------------------------------------------ *)
(** ** External API and I/O trace *)

(** One object of the [txlist] result array (all fields are JSON strings). *)
Record tx_entry := {
  tx_hash : string;
  tx_from : string;
  tx_to : string;
  tx_value : string;
  tx_gasPrice : string;
  tx_gasUsed : string;
  tx_blockNumber : string;
  tx_timeStamp : string;
  tx_isError : string
}.

Record txlist_response := { tl_status : string; tl_result : list tx_entry }.
Record balance_response := { bal_status : string; bal_result : string }.

(** Observable effects: HTTP GETs to Etherscan (by the queried address) and
    lines printed to stdout. *)
Inductive io_event :=
  | GetTxlist (address : string)
  | GetBalance (address : string)
  | Stdout (line : string).

(* ------------------------------------------------------------------ *)
(** ** [fetch_transactions_from_etherscan] (tracker/views.py) *)

(** Building the [Transaction.objects.create] arguments of one entry: the
    [int(...)], [fromtimestamp] and [Decimal(...)] conversions, any of which
    may raise. [value=Decimal(tx["value"]) / Decimal(10**18)]. *)
Definition build_transaction (e : tx_entry) (from_key to_key : string)
    : py_exc + Transaction :=
  let? ts := raise_none (ValueError "invalid literal for int()") (py_int (tx_timeStamp e)) in
  let? ts := raise_none (ValueError "year is out of range") (fromtimestamp ts) in
  let? v := raise_none InvalidOperation (decimal_of_string (tx_value e)) in
  let? gp := raise_none (ValueError "invalid literal for int()") (py_int (tx_gasPrice e)) in
  let? gu := raise_none (ValueError "invalid literal for int()") (py_int (tx_gasUsed e)) in
  let? bn := raise_none (ValueError "invalid literal for int()") (py_int (tx_blockNumber e)) in
  inr {| from_address := from_key; to_address := to_key;
         value := dec_div_pow10 v 18; gas_price := gp; gas_used := gu;
         block_number := bn; timestamp := ts;
         status := String.eqb (tx_isError e) "0" |}.

(** The [for tx in data["result"]] loop. Writes are committed one by one
    (no enclosing atomic block), so an exception keeps the rows written so
    far: the state is returned with the outcome. *)
Fixpoint import_entries (st : db) (es : list tx_entry) (now : Z) : db * (py_exc + unit) :=
  match es with
  | [] => (st, inr tt)
  | e :: rest =>
      match transactions st !! tx_hash e with
      | Some _ => import_entries st rest now
      | None =>
          let f := lower (tx_from e) in
          let t := lower (tx_to e) in
          let st1 := get_or_create_address (get_or_create_address st f now) t now in
          match build_transaction e f t with
          | inl exn => (st1, inl exn)
          | inr row =>
              import_entries (set_transactions (<[tx_hash e := row]> (transactions st1)) st1)
                rest now
          end
      end
  end.

(** [api] answers the [txlist] request for an address. *)
Definition fetch_transactions_from_etherscan (st : db) (eth_address : string)
    (api : string -> txlist_response) (now : Z)
    : db * list io_event * (py_exc + unit) :=
  let address := lower eth_address in
  let data := api address in
  if negb (String.eqb (tl_status data) "1") then
    (st, [GetTxlist address; Stdout "No transactions found or API error"], inr tt)
  else
    let '(st', o) := import_entries st (tl_result data) now in
    (st', [GetTxlist address], o).

(* ------------------------------------------------------------------ *)
(** ** [update_address_balance] (tracker/views.py) *)

(** [address] is the in-memory object for table key [key]; [address.save()]
    writes the whole object back. The updated object is returned too. *)
Definition update_address_balance (st : db) (key : string) (address : EthereumAddress)
    (api : string -> balance_response) (now : Z)
    : db * EthereumAddress * list io_event * (py_exc + unit) :=
  let data := api key in
  if String.eqb (bal_status data) "1" then
    match decimal_of_string (bal_result data) with
    | None => (st, address, [GetBalance key], inl InvalidOperation)
    | Some wei_balance =>
        let eth_balance := dec_div_pow10 wei_balance 18 in
        let address' := {| label := label address; balance := eth_balance;
                           last_updated := now; is_contract := is_contract address |} in
        (set_addresses (<[key := address']> (addresses st)) st, address', [GetBalance key], inr tt)
    end
  else (st, address, [GetBalance key],
        inl (ValueError "Failed to fetch balance from Etherscan")).

(* ------------------------------------------------------------------ *)
(** ** [address_detail] (the second definition in tracker/views.py, which
    replaces the first one) *)

Definition references (k : string) (t : Transaction) : bool :=
  String.eqb (from_address t) k || String.eqb (to_address t) k.

(** [Transaction.objects.filter(Q(from_address=..) | Q(to_address=..)).exists()] *)
Definition has_any (st : db) (k : string) : bool :=
  existsb (fun kv => references k kv.2) (map_to_list (transactions st)).

(** Stable sort by timestamp, newest first: [list.sort(key=..., reverse=True)]
    keeps equal keys in their original order. The database's
    [order_by('-timestamp')] is taken to resolve ties in table order. *)
Fixpoint insert_desc (x : Transaction) (l : list Transaction) : list Transaction :=
  match l with
  | [] => [x]
  | y :: r => if timestamp y <? timestamp x then x :: l else y :: insert_desc x r
  end.

Definition sort_by_timestamp_desc (l : list Transaction) : list Transaction :=
  fold_left (fun acc x => insert_desc x acc) l [].

Definition table_rows (st : db) : list Transaction := map snd (map_to_list (transactions st)).

Definition outgoing_rows (st : db) (k : string) : list Transaction :=
  List.filter (fun t => String.eqb (from_address t) k) (table_rows st).

Definition incoming_rows (st : db) (k : string) : list Transaction :=
  List.filter (fun t => String.eqb (to_address t) k) (table_rows st).

(** [eth_address.outgoing_transactions.order_by('-timestamp')[:20]] *)
Definition outgoing_txs (st : db) (k : string) : list Transaction :=
  take 20 (sort_by_timestamp_desc (outgoing_rows st k)).

Definition incoming_txs (st : db) (k : string) : list Transaction :=
  take 20 (sort_by_timestamp_desc (incoming_rows st k)).

Record detail_context := {
  ctx_address : EthereumAddress;
  ctx_transactions : list Transaction;
  outgoing_count : nat;
  incoming_count : nat
}.

(** The template context. [list(outgoing_txs)] fills the queryset's cache, so
    [outgoing_txs.count()] is the length of the sliced result. *)
Definition detail_context_of (st : db) (k : string) (eth_address : EthereumAddress)
    : detail_context :=
  let all_transactions :=
    sort_by_timestamp_desc (outgoing_txs st k ++ incoming_txs st k) in
  {| ctx_address := eth_address;
     ctx_transactions := take 20 all_transactions;
     outgoing_count := length (outgoing_txs st k);
     incoming_count := length (incoming_txs st k) |}.

Definition address_detail (st : db) (address : string)
    (api : string -> txlist_response) (now : Z)
    : db * list io_event * (py_exc + detail_context) :=
  match addresses st !! address with
  | None => (st, [], inl Http404)
  | Some eth_address =>
      if has_any st address then (st, [], inr (detail_context_of st address eth_address))
      else
        let '(st', evs, o) := fetch_transactions_from_etherscan st address api now in
        match o with
        | inl exn => (st', evs, inl exn)
        | inr _ => (st', evs, inr (detail_context_of st' address eth_address))
        end
  end.

(* ------------------------------------------------------------------ *)
(** ** [AddAddressForm] address field (tracker/forms.py) *)

Inductive form_error := Required | MaxLength | NullCharacters | InvalidFormat.

Definition is_hex (c : ascii) : bool :=
  let n := nat_of_ascii c in
  (((48 <=? n) && (n <=? 57)) || ((65 <=? n) && (n <=? 70)) || ((97 <=? n) && (n <=? 102)))%nat.

(** The "0x" prefix, and what follows it. *)
Definition strip_0x (l : list ascii) : option (list ascii) :=
  match l with
  | c0 :: c1 :: rest =>
      if ascii_dec c0 "0" then (if ascii_dec c1 "x" then Some rest else None) else None
  | _ => None
  end.

(** [re.match(r'^0x[a-fA-F0-9]{40}$', s)]: anchored at the start; [$] also
    matches just before a final newline. *)
Definition re_match_eth (l : list ascii) : bool :=
  match strip_0x l with
  | Some rest =>
      (length (take 40 rest) =? 40)%nat && forallb is_hex (take 40 rest) &&
      match drop 40 rest with
      | [] => true
      | ["010"%char] => true
      | _ => false
      end
  | None => false
  end.

(** [AddAddressForm.clean_address] on [cleaned_data['address']]. *)
Definition clean_address (address : string) : form_error + string :=
  if re_match_eth (list_ascii_of_string address) then inr (lower address)
  else inl InvalidFormat.

(** Cleaning of the [address] field: the form field generated for
    [CharField(max_length=42)] strips the value ([strip=True]), rejects an
    empty one, runs the max-length and null-character validators, then the
    form calls [clean_address]. (The model-level uniqueness check of the
    form runs afterwards, on the whole form.) *)
Definition address_field_clean (raw : string) : form_error + string :=
  let v := py_strip raw in
  if String.eqb v "" then inl Required
  else if (42 <? String.length v)%nat then inl MaxLength
  else if existsb (fun c => (nat_of_ascii c =? 0)%nat) (list_ascii_of_string v)
  then inl NullCharacters
  else clean_address v.

(** The address shape of the spec: "0x" followed by exactly 40 hex digits. *)
Definition is_eth_address (s : string) : bool :=
  match strip_0x (list_ascii_of_string s) with
  | Some rest => (length rest =? 40)%nat && forallb is_hex rest
  | None => false
  end.

(* ------------------------------------------------------------------ *)
(** ** [AddressWatchList] membership (tracker/models.py, views.add_address) *)

Module Membership.

(** A row of the through table; addresses and watchlists by primary key. *)
Record AddressWatchList := {
  awl_address : nat;
  awl_watchlist : nat;
  added_at : Z;
  notes : string
}.

Definition awl_key (r : AddressWatchList) : nat * nat := (awl_address r, awl_watchlist r).

Definition row_is (a w : nat) (r : AddressWatchList) : bool :=
  (awl_address r =? a)%nat && (awl_watchlist r =? w)%nat.

(** [watchlist.ethereumaddress_set.add(address)]: with a custom through
    model Django looks up the pairs already present and bulk-creates only
    the missing ones. *)
Definition m2m_add (rows : list AddressWatchList) (a w : nat) (now : Z)
    : list AddressWatchList :=
  if existsb (row_is a w) rows then rows
  else rows ++ [{| awl_address := a; awl_watchlist := w; added_at := now; notes := "" |}].

(** A sequence of [add] calls: (address, watchlist, time) triples. *)
Definition m2m_add_all (rows : list AddressWatchList) (ops : list (nat * nat * Z))
    : list AddressWatchList :=
  fold_left (fun acc '(a, w, t) => m2m_add acc a w t) ops rows.

End Membership.

(* ------------------------------------------------------------------ *)
(** ** [api_address_balance] (tracker/views.py) *)

(** The JSON answers of the endpoint: the success body (status 200) and
    [{'error': str(e)}] (status 400). The balance and time are given by
    value; their [str] and [isoformat] renderings are not modelled. *)
Inductive json_response :=
  | JsonBalance (address : string) (balance : Q) (last_updated : Z)
  | JsonError (error : string).

(** [str(e)] of the exceptions reaching the endpoint's [except]. *)
Definition py_exc_str (e : py_exc) : string :=
  match e with
  | ValueError msg => msg
  | InvalidOperation => "[<class 'decimal.ConversionSyntax'>]"
  | Http404 => "No EthereumAddress matches the given query."
  end.

(** [get_object_or_404] runs inside the [try], so its [Http404] is caught by
    [except Exception] like the errors of [update_address_balance]. *)
Definition api_address_balance (st : db) (address : string)
    (api : string -> balance_response) (now : Z)
    : db * list io_event * json_response :=
  match addresses st !! address with
  | None => (st, [], JsonError (py_exc_str Http404))
  | Some eth_address =>
      let '(st', eth_address', evs, o) :=
        update_address_balance st address eth_address api now in
      match o with
      | inl e => (st', evs, JsonError (py_exc_str e))
      | inr _ => (st', evs, JsonBalance address (balance eth_address')
                                          (last_updated eth_address'))
      end
  end.

(* ------------------------------------------------------------------ *)
(** ** [home] (tracker/views.py) *)

(** [Transaction.objects.order_by('-timestamp')[:10]] *)
Definition recent_transactions (st : db) : list Transaction :=
  take 10 (sort_by_timestamp_desc (table_rows st)).

(** A [LEFT OUTER JOIN] side: the matching rows, or one NULL row. *)
Definition left_join {A} (l : list A) : list (option A) :=
  match l with [] => [None] | _ => map Some l end.

(** [annotate(tx_count=Count('outgoing_transactions') +
    Count('incoming_transactions'))]: both reverse relations are joined in
    one query, and each [Count] counts the non-NULL ids among the joined
    rows of the address. *)
Definition tx_count (st : db) (k : string) : nat :=
  let rows := list_prod (left_join (outgoing_rows st k)) (left_join (incoming_rows st k)) in
  length (List.filter (fun r => bool_decide (is_Some r.1)) rows) +
  length (List.filter (fun r => bool_decide (is_Some r.2)) rows).

(** [order_by('-balance')], ties in table order. *)
Fixpoint insert_by_balance (x : string * EthereumAddress) (l : list (string * EthereumAddress))
    : list (string * EthereumAddress) :=
  match l with
  | [] => [x]
  | y :: r =>
      if negb (Qle_bool (balance x.2) (balance y.2)) then x :: l
      else y :: insert_by_balance x r
  end.

Definition top_addresses (st : db) : list (string * EthereumAddress * nat) :=
  map (fun kv => (kv.1, kv.2, tx_count st kv.1))
    (take 5 (fold_left (fun acc x => insert_by_balance x acc) (map_to_list (addresses st)) [])).

Record home_context := {
  home_recent_transactions : list Transaction;
  home_top_addresses : list (string * EthereumAddress * nat)
}.

Definition home (st : db) : home_context :=
  {| home_recent_transactions := recent_transactions st;
     home_top_addresses := top_addresses st |}.

(** The orders of the listings: [x] may be listed before [y]. *)
Definition newer_or_equal (x y : Transaction) : Prop := (timestamp y <= timestamp x)%Z.

Definition richer_or_equal (x y : string * EthereumAddress) : Prop :=
  (balance y.2 <= balance x.2)%Q.

(* ------------------------------------------------------------------ *)
(** ** The logged-in views: [add_address], [create_watchlist], [dashboard]
    (tracker/views.py) with their forms (tracker/forms.py) *)

Module App.

(** [WatchList]; the table is keyed by its integer primary key. *)
Record WatchList := {
  wl_user : nat;
  wl_name : string;
  wl_description : string;
  wl_created_at : Z
}.

(** A row of the [AddressWatchList] through table; the address by its unique
    [address] string, the watchlist by its primary key. *)
Record AddressWatchList := {
  m_address : string;
  m_watchlist : nat;
  m_added_at : Z;
  m_notes : string
}.

(** [Alert] (the fields the dashboard reads). *)
Record Alert := {
  al_user : nat;
  al_address : string;
  al_alert_type : string;
  al_is_active : bool
}.

Record state := {
  store : db;
  watchlists : gmap nat WatchList;
  members : list AddressWatchList;
  alerts : list Alert
}.

Definition set_store (d : db) (s : state) : state :=
  {| store := d; watchlists := watchlists s; members := members s; alerts := alerts s |}.

Definition set_watchlists (m : gmap nat WatchList) (s : state) : state :=
  {| store := store s; watchlists := m; members := members s; alerts := alerts s |}.

Definition set_members (l : list AddressWatchList) (s : state) : state :=
  {| store := store s; watchlists := watchlists s; members := l; alerts := alerts s |}.

(** The primary key of a new row: one more than the largest in use. *)
Definition fresh_watchlist_id (m : gmap nat WatchList) : nat :=
  S (foldr Nat.max 0%nat (map fst (map_to_list m))).

(** [request.POST]: a missing key reads as [None], which a [CharField]
    cleans like the empty string. *)
Inductive method := GET | POST (data : gmap string string).

Record request := { req_user : option nat; req_method : method }.

Definition post_value (data : gmap string string) (k : string) : string :=
  default "" (data !! k).

Inductive form_issue := FieldError (e : form_error) | NotUnique.

Inductive view_exc := Py (e : py_exc) | MultipleObjectsReturned.

(** The dashboard context; the watchlists are listed with the stored
    addresses on each ([prefetch_related('ethereumaddress_set')]). *)
Record dashboard_context := {
  dash_watchlists : list (nat * WatchList * list string);
  dash_alerts : list Alert;
  total_addresses : nat;
  total_balance : Q
}.

(** The responses: the redirect of [@login_required] to the login page, a
    redirect to a named route, a page rendered with the form's errors, the
    dashboard page, and an exception leaving the view (a server error). *)
Inductive response :=
  | RedirectToLogin
  | Redirect (name : string)
  | RenderForm (template : string) (errors : list (string * form_issue))
  | RenderDashboard (ctx : dashboard_context)
  | ServerError (e : view_exc).

(** A [CharField] form field with [strip=True]: an empty value is an error
    only when the field is required, and the validators (max length, null
    characters) are not run on it. The first error of the field is kept. *)
Definition char_field_clean (required : bool) (max_length : option nat) (raw : string)
    : form_error + string :=
  let v := py_strip raw in
  if String.eqb v "" then (if required then inl Required else inr "")
  else if match max_length with Some n => (n <? String.length v)%nat | None => false end
  then inl MaxLength
  else if existsb (fun c => (nat_of_ascii c =? 0)%nat) (list_ascii_of_string v)
  then inl NullCharacters
  else inr v.

(** [label = CharField(max_length=100, blank=True)] *)
Definition label_field_clean (raw : string) : form_error + string :=
  char_field_clean false (Some 100%nat) raw.

Definition field_errors (name : string) (r : form_error + string) : list (string * form_issue) :=
  match r with inl e => [(name, FieldError e)] | inr _ => [] end.

(** [AddAddressForm(request.POST).is_valid()]: the two fields, then the
    model's uniqueness check on [address] (skipped when that field failed). *)
Definition add_address_form_clean (st : db) (data : gmap string string)
    : list (string * form_issue) + (string * string) :=
  let ra := address_field_clean (post_value data "address") in
  let rl := label_field_clean (post_value data "label") in
  let unique_errs :=
    match ra with
    | inr a => if bool_decide (is_Some (addresses st !! a)) then [("address", NotUnique)] else []
    | inl _ => []
    end in
  let errs := field_errors "address" ra ++ field_errors "label" rl ++ unique_errs in
  match ra, rl, errs with
  | inr a, inr l, [] => inr (a, l)
  | _, _, _ => inl errs
  end.

(** [CreateWatchListForm]: [name = CharField(max_length=255)] and
    [description = TextField(blank=True)]; no unique field. *)
Definition create_watchlist_form_clean (data : gmap string string)
    : list (string * form_issue) + (string * string) :=
  let rn := char_field_clean true (Some 255%nat) (post_value data "name") in
  let rd := char_field_clean false None (post_value data "description") in
  match rn, rd with
  | inr n, inr d => inr (n, d)
  | _, _ => inl (field_errors "name" rn ++ field_errors "description" rd)
  end.

Definition watchlist_is (u : nat) (name : string) (kv : nat * WatchList) : bool :=
  (wl_user kv.2 =? u)%nat && String.eqb (wl_name kv.2) name.

(** [WatchList.objects.get_or_create(name=..., user=...,
    defaults={'description': ...})]: [get] raises when two rows match. *)
Definition get_or_create_watchlist (s : state) (u : nat) (name description : string) (now : Z)
    : view_exc + (state * nat) :=
  match List.filter (watchlist_is u name) (map_to_list (watchlists s)) with
  | [] =>
      let id := fresh_watchlist_id (watchlists s) in
      inr (set_watchlists (<[id := {| wl_user := u; wl_name := name;
                                      wl_description := description;
                                      wl_created_at := now |}]> (watchlists s)) s, id)
  | [(id, _)] => inr (s, id)
  | _ => inl MultipleObjectsReturned
  end.

(** [watchlist.ethereumaddress_set.add(address)] through the custom model:
    only a missing pair is inserted. *)
Definition member_add (rows : list AddressWatchList) (a : string) (w : nat) (now : Z)
    : list AddressWatchList :=
  if existsb (fun r => String.eqb (m_address r) a && (m_watchlist r =? w)%nat) rows then rows
  else rows ++ [{| m_address := a; m_watchlist := w; m_added_at := now; m_notes := "" |}].

(** [@login_required] *)
Definition login_required (req : request) (view : nat -> state * list io_event * response)
    (s : state) : state * list io_event * response :=
  match req_user req with
  | None => (s, [], RedirectToLogin)
  | Some u => view u
  end.

(** [add_address]. Each write is committed at once (no atomic block): an
    exception keeps what was written before it. The flash message is not
    modelled. [form.save()] inserts the row with the model's defaults. *)
Definition add_address (s : state) (req : request) (api : string -> balance_response) (now : Z)
    : state * list io_event * response :=
  login_required req (fun u =>
    match req_method req with
    | GET => (s, [], RenderForm "add_address.html" [])
    | POST data =>
        match add_address_form_clean (store s) data with
        | inl errs => (s, [], RenderForm "add_address.html" errs)
        | inr (a, lbl) =>
            let row := {| label := lbl; balance := 0%Q; last_updated := now;
                          is_contract := false |} in
            let s1 := set_store (set_addresses (<[a := row]> (addresses (store s))) (store s)) s in
            match get_or_create_watchlist s1 u "Default" "Default watchlist" now with
            | inl e => (s1, [], ServerError e)
            | inr (s2, w) =>
                let s3 := set_members (member_add (members s2) a w now) s2 in
                let '(st4, _, evs, o) := update_address_balance (store s3) a row api now in
                let s4 := set_store st4 s3 in
                match o with
                | inl e => (s4, evs, ServerError (Py e))
                | inr _ => (s4, evs, Redirect "dashboard")
                end
            end
        end
    end) s.

(** [create_watchlist]: [form.save(commit=False)], the owner set, [save()]. *)
Definition create_watchlist (s : state) (req : request) (now : Z)
    : state * list io_event * response :=
  login_required req (fun u =>
    match req_method req with
    | GET => (s, [], RenderForm "create_watchlist.html" [])
    | POST data =>
        match create_watchlist_form_clean data with
        | inl errs => (s, [], RenderForm "create_watchlist.html" errs)
        | inr (n, d) =>
            let id := fresh_watchlist_id (watchlists s) in
            (set_watchlists (<[id := {| wl_user := u; wl_name := n; wl_description := d;
                                        wl_created_at := now |}]> (watchlists s)) s,
             [], Redirect "dashboard")
        end
    end) s.

Definition owned_by (s : state) (u w : nat) : bool :=
  match watchlists s !! w with Some wl => (wl_user wl =? u)%nat | None => false end.

(** [EthereumAddress.objects.filter(watchlists__user=user).distinct()]: the
    stored addresses on at least one of the user's watchlists, each once. *)
Definition user_addresses (s : state) (u : nat) : gmap string EthereumAddress :=
  filter (fun kv => existsb (fun r => String.eqb (m_address r) kv.1 && owned_by s u (m_watchlist r))
                             (members s) = true)
         (addresses (store s)).

(** SQL [SUM]: [NULL] over no rows, the exact sum of the decimals otherwise. *)
Definition sql_sum (l : list Q) : option Q :=
  match l with [] => None | _ => Some (fold_right Qplus 0%Q l) end.

Definition dashboard_of (s : state) (u : nat) : dashboard_context :=
  {| dash_watchlists :=
       map (fun kv => (kv.1, kv.2,
                       map m_address
                         (List.filter (fun r => (m_watchlist r =? kv.1)%nat &&
                                                bool_decide (is_Some (addresses (store s) !! m_address r)))
                            (members s))))
           (List.filter (fun kv => (wl_user kv.2 =? u)%nat) (map_to_list (watchlists s)));
     dash_alerts := List.filter (fun al => (al_user al =? u)%nat && al_is_active al) (alerts s);
     total_addresses := size (user_addresses s u);
     total_balance :=
       default 0%Q (sql_sum (map (fun kv => balance kv.2) (map_to_list (user_addresses s u)))) |}.

Definition dashboard (s : state) (req : request) : state * list io_event * response :=
  login_required req (fun u => (s, [], RenderDashboard (dashboard_of s u))) s.

End App.

(* ------------------------------------------------------------------ *)
(** ** Sample inputs *)

Definition empty_db : db := {| addresses := ∅; transactions := ∅ |}.

(** A [txlist] entry of one ether with the given hash, parties, timestamp
    and [isError]. *)
Definition sample_entry (h f t ts is_error : string) : tx_entry :=
  {| tx_hash := h; tx_from := f; tx_to := t; tx_value := "1000000000000000000";
     tx_gasPrice := "20000000000"; tx_gasUsed := "21000"; tx_blockNumber := "100";
     tx_timeStamp := ts; tx_isError := is_error |}.

Definition txlist_ok (es : list tx_entry) : string -> txlist_response :=
  fun _ => {| tl_status := "1"; tl_result := es |}.

Definition txlist_error : string -> txlist_response :=
  fun _ => {| tl_status := "0"; tl_result := [] |}.

Definition sample_txlist : string -> txlist_response :=
  txlist_ok [sample_entry "0xh1" "0xAAA" "0xbbb" "1700000000" "0";
             sample_entry "0xh2" "0xbbb" "0xaaa" "1700000100" "1";
             sample_entry "0xh1" "0xAAA" "0xbbb" "1700000000" "0"].

Definition balance_ok (wei : string) : string -> balance_response :=
  fun _ => {| bal_status := "1"; bal_result := wei |}.

Definition balance_error : string -> balance_response :=
  fun _ => {| bal_status := "0"; bal_result := "Error! Invalid address format" |}.

(** A store in which "0xaaa" has sent 21 transactions to "0xbbb". *)
Definition sample_tx (f t : string) (ts : Z) : Transaction :=
  {| from_address := f; to_address := t; value := 1%Q; gas_price := 20000000000;
     gas_used := 21000; block_number := ts - 1699999000; timestamp := ts; status := true |}.

Definition busy_db : db :=
  {| addresses := list_to_map [("0xaaa", new_address_row 0); ("0xbbb", new_address_row 0)];
     transactions :=
       list_to_map (map (fun i => (String.append "0xh" (String (ascii_of_nat (65 + i)) ""),
                                  sample_tx "0xaaa" "0xbbb" (1700000000 + Z.of_nat i)))
                        (seq 0 21)) |}.

(** A store in which "0xaaa" has sent two transactions to "0xbbb" and
    received one from it. *)
Definition two_way_db : db :=
  {| addresses := list_to_map [("0xaaa", new_address_row 0); ("0xbbb", new_address_row 0)];
     transactions :=
       list_to_map [("0xt1", sample_tx "0xaaa" "0xbbb" 1700000001);
                    ("0xt2", sample_tx "0xaaa" "0xbbb" 1700000002);
                    ("0xt3", sample_tx "0xbbb" "0xaaa" 1700000003)] |}.

(** A store holding one transfer from "0xaaa" to itself. *)
Definition self_transfer_db : db :=
  {| addresses := list_to_map [("0xaaa", new_address_row 0)];
     transactions := list_to_map [("0xt1", sample_tx "0xaaa" "0xaaa" 1700000001)] |}.

(** An address in mixed case, as users paste it. *)
Definition sample_eth : string := "0x52908400098527886E0F7030069857D2E4169EE7".

Definition app_empty : App.state :=
  {| App.store := empty_db; App.watchlists := ∅; App.members := []; App.alerts := [] |}.

(** A POST by the logged-in user [u] with the given form fields. *)
Definition post_as (u : nat) (kvs : list (string * string)) : App.request :=
  {| App.req_user := Some u; App.req_method := App.POST (list_to_map kvs) |}.

(** The store after user 1 created two watchlists named "Default". *)
Definition two_defaults : App.state :=
  (App.create_watchlist
     (App.create_watchlist app_empty (post_as 1 [("name", "Default")]) 0).1.1
     (post_as 1 [("name", " Default ")]) 1).1.1.

(* ================================================================== *)
(** * Properties *)

(* ------------------------------------------------------------------ *)
(** ** get_or_create and the import loop *)

Lemma get_or_create_present st a now x :
  addresses st !! a = Some x -> get_or_create_address st a now = st.
Proof. intros H. unfold get_or_create_address. by rewrite H. Qed.

Lemma get_or_create_transactions st a now :
  transactions (get_or_create_address st a now) = transactions st.
Proof. unfold get_or_create_address. by destruct (addresses st !! a). Qed.

Lemma get_or_create_lookup st a now b :
  addresses (get_or_create_address st a now) !! b =
  match addresses st !! b with
  | Some x => Some x
  | None => if decide (a = b) then Some (new_address_row now) else None
  end.
Proof.
  unfold get_or_create_address.
  destruct (addresses st !! a) eqn:Ha; simpl.
  - destruct (addresses st !! b) eqn:Hb; [done|].
    case_decide; subst; congruence.
  - rewrite lookup_insert. case_decide; subst.
    + by rewrite Ha.
    + by destruct (addresses st !! b).
Qed.

Lemma get_or_create_is_some st a now : is_Some (addresses (get_or_create_address st a now) !! a).
Proof. rewrite get_or_create_lookup. destruct (addresses st !! a); [done|]. by case_decide. Qed.

Lemma get_or_create_keeps st a now b x :
  addresses st !! b = Some x -> addresses (get_or_create_address st a now) !! b = Some x.
Proof. intros H. by rewrite get_or_create_lookup, H. Qed.

(** The two [get_or_create] calls of one entry, run a second time, change nothing. *)
Lemma get_or_create_pair_idem st f t now now' :
  let st1 := get_or_create_address (get_or_create_address st f now) t now in
  get_or_create_address (get_or_create_address st1 f now') t now' = st1.
Proof.
  intros st1.
  destruct (get_or_create_is_some (get_or_create_address st f now) t now) as [y Hy].
  destruct (get_or_create_is_some st f now) as [x Hx].
  pose proof (get_or_create_keeps _ t now _ _ Hx) as Hx'.
  fold st1 in Hx', Hy.
  rewrite (get_or_create_present st1 f now' x Hx').
  by rewrite (get_or_create_present st1 t now' y Hy).
Qed.

(** The import never overwrites nor deletes a stored transaction. *)
Lemma import_entries_keeps_tx es : forall st now h row,
  transactions st !! h = Some row ->
  transactions (import_entries st es now).1 !! h = Some row.
Proof.
  induction es as [|e rest IH]; intros st now h row H; simpl; [done|].
  destruct (transactions st !! tx_hash e) eqn:He; [by apply IH|].
  set (st1 := get_or_create_address (get_or_create_address st (lower (tx_from e)) now)
                (lower (tx_to e)) now).
  assert (Ht1 : transactions st1 = transactions st)
    by (unfold st1; by rewrite !get_or_create_transactions).
  destruct (build_transaction e _ _); simpl; [by rewrite Ht1|].
  apply IH. simpl. rewrite Ht1, lookup_insert_ne; [done|]. congruence.
Qed.

(** Entries whose hash is stored are skipped and change nothing. *)
Lemma import_entries_skip st e rest now :
  is_Some (transactions st !! tx_hash e) ->
  import_entries st (e :: rest) now = import_entries st rest now.
Proof. intros [r Hr]. simpl. by rewrite Hr. Qed.

Lemma import_entries_idempotent es : forall st st1 o now now',
  import_entries st es now = (st1, o) ->
  import_entries st1 es now' = (st1, o).
Proof.
  induction es as [|e rest IH]; intros st st1 o now now' H; simpl in H |- *.
  - by inversion H.
  - destruct (transactions st !! tx_hash e) as [r|] eqn:He.
    + pose proof (import_entries_keeps_tx rest st now _ _ He) as Hk.
      rewrite H in Hk. simpl in Hk. rewrite Hk. by eapply IH.
    + set (st1' := get_or_create_address (get_or_create_address st (lower (tx_from e)) now)
                     (lower (tx_to e)) now) in H.
      assert (Ht1 : transactions st1' = transactions st)
        by (unfold st1'; by rewrite !get_or_create_transactions).
      destruct (build_transaction e _ _) as [exn|row] eqn:B.
      * inversion H; subst st1 o.
        rewrite Ht1, He. unfold st1'. rewrite get_or_create_pair_idem. fold st1'.
        done.
      * set (st2 := set_transactions (<[tx_hash e:=row]> (transactions st1')) st1') in H.
        assert (H2 : transactions st2 !! tx_hash e = Some row)
          by (unfold st2; simpl; by rewrite lookup_insert_eq).
        pose proof (import_entries_keeps_tx rest st2 now _ _ H2) as Hk.
        rewrite H in Hk. simpl in Hk. rewrite Hk. by eapply IH.
Qed.

Lemma import_entries_keeps_address es : forall st now k x,
  addresses st !! k = Some x ->
  addresses (import_entries st es now).1 !! k = Some x.
Proof.
  induction es as [|e rest IH]; intros st now k x H; simpl; [done|].
  destruct (transactions st !! tx_hash e); [by apply IH|].
  pose proof (get_or_create_keeps _ (lower (tx_to e)) now _ _
                (get_or_create_keeps st (lower (tx_from e)) now _ _ H)) as H1.
  destruct (build_transaction e _ _); simpl; [done|].
  by apply IH.
Qed.

(** Every address row that the import adds is a fresh default row. *)
Lemma import_entries_new_address es : forall st now k x,
  addresses st !! k = None ->
  addresses (import_entries st es now).1 !! k = Some x ->
  x = new_address_row now.
Proof.
  induction es as [|e rest IH]; intros st now k x H Hx; simpl in Hx; [congruence|].
  destruct (transactions st !! tx_hash e); [by eapply IH|].
  set (st1 := get_or_create_address (get_or_create_address st (lower (tx_from e)) now)
                (lower (tx_to e)) now) in Hx.
  destruct (addresses st1 !! k) as [y|] eqn:Hy.
  - assert (y = new_address_row now).
    { unfold st1 in Hy. rewrite !get_or_create_lookup, H in Hy.
      repeat case_decide; congruence. }
    subst y.
    destruct (build_transaction e _ _); simpl in Hx; [congruence|].
    pose proof (import_entries_keeps_address rest
                  (set_transactions (<[tx_hash e:=t]> (transactions st1)) st1) now k _ Hy)
      as Hk.
    rewrite Hk in Hx. congruence.
  - destruct (build_transaction e _ _); simpl in Hx; [congruence|].
    eapply IH; [|exact Hx]. exact Hy.
Qed.

Lemma build_transaction_fields e f t row :
  build_transaction e f t = inr row ->
  from_address row = f /\ to_address row = t /\
  status row = String.eqb (tx_isError e) "0".
Proof.
  unfold build_transaction, exc_bind, raise_none.
  repeat match goal with |- context [match ?x with _ => _ end] => destruct x end;
    intros H; inversion H; subst; simpl; auto.
Qed.

(** A transaction row the import adds comes from an entry with that hash,
    built by [build_transaction] from its lowercased [from]/[to], and both
    referenced address rows exist afterwards. *)
Lemma import_entries_new_tx es : forall st now h row,
  transactions st !! h = None ->
  transactions (import_entries st es now).1 !! h = Some row ->
  exists e, e ∈ es /\ tx_hash e = h /\
    build_transaction e (lower (tx_from e)) (lower (tx_to e)) = inr row /\
    is_Some (addresses (import_entries st es now).1 !! lower (tx_from e)) /\
    is_Some (addresses (import_entries st es now).1 !! lower (tx_to e)).
Proof.
  induction es as [|e rest IH]; intros st now h row H Hr; simpl in Hr |- *; [congruence|].
  destruct (transactions st !! tx_hash e) eqn:He.
  - destruct (IH st now h row H Hr) as (e' & ? & ?). exists e'. split; [by right|done].
  - set (st1 := get_or_create_address (get_or_create_address st (lower (tx_from e)) now)
                  (lower (tx_to e)) now) in Hr |- *.
    assert (Ht1 : transactions st1 = transactions st)
      by (unfold st1; by rewrite !get_or_create_transactions).
    destruct (build_transaction e _ _) as [exn|row'] eqn:B; simpl in Hr |- *.
    + rewrite Ht1 in Hr. congruence.
    + set (st2 := set_transactions (<[tx_hash e:=row']> (transactions st1)) st1) in Hr |- *.
      destruct (decide (tx_hash e = h)) as [<-|Hne].
      * assert (H2 : transactions st2 !! tx_hash e = Some row')
          by (unfold st2; simpl; by rewrite lookup_insert_eq).
        pose proof (import_entries_keeps_tx rest st2 now _ _ H2) as Hk.
        rewrite Hk in Hr. inversion Hr; subst row'.
        exists e. split; [by left|]. split; [done|]. split; [done|].
        destruct (get_or_create_is_some st (lower (tx_from e)) now) as [x Hx].
        destruct (get_or_create_is_some (get_or_create_address st (lower (tx_from e)) now)
                    (lower (tx_to e)) now) as [y Hy].
        pose proof (get_or_create_keeps _ (lower (tx_to e)) now _ _ Hx) as Hx'.
        fold st1 in Hx', Hy.
        split; eexists; apply (import_entries_keeps_address rest st2 now); done.
      * assert (H2 : transactions st2 !! h = None)
          by (unfold st2; simpl; rewrite lookup_insert_ne, Ht1; done).
        destruct (IH st2 now h row H2 Hr) as (e' & ? & ?).
        exists e'. split; [by right|done].
Qed.

(* ------------------------------------------------------------------ *)
(** ** Transaction import *)

(** C1. Re-running the import over the same [txlist] result returns exactly
    what the first run returned and leaves the store as the first run left
    it: every entry is then skipped by hash (or, for an entry that raised,
    fails again before writing a transaction), so no Transaction row is
    added or changed. *)
Theorem fetch_transactions_rerun_unchanged st eth_address api now now' :
  let '(st1, evs, o) := fetch_transactions_from_etherscan st eth_address api now in
  fetch_transactions_from_etherscan st1 eth_address api now' = (st1, evs, o).
Proof.
  unfold fetch_transactions_from_etherscan.
  destruct (negb _); [done|].
  destruct (import_entries st _ now) as [st1 o] eqn:H.
  by rewrite (import_entries_idempotent _ _ _ _ _ now' H).
Qed.

(** C2. Every Transaction row created by an import has [status = true]
    exactly when the [isError] field of the entry it was created from is the
    string "0". *)
Theorem fetch_transactions_status_from_isError st eth_address api now st' evs o h row :
  fetch_transactions_from_etherscan st eth_address api now = (st', evs, o) ->
  transactions st !! h = None ->
  transactions st' !! h = Some row ->
  exists e, e ∈ tl_result (api (lower eth_address)) /\ tx_hash e = h /\
    status row = String.eqb (tx_isError e) "0".
Proof.
  unfold fetch_transactions_from_etherscan. intros Hf H Hr.
  destruct (negb _).
  - inversion Hf; subst. congruence.
  - destruct (import_entries st _ now) as [st1 o1] eqn:Hi. inversion Hf; subst st1.
    pose proof (import_entries_new_tx (tl_result (api (lower eth_address))) st now h row H) as Hn.
    rewrite Hi in Hn. destruct (Hn Hr) as (e & He & Hh & B & _).
    exists e. apply build_transaction_fields in B. naive_solver.
Qed.

Lemma fetch_transactions_status_from_isError_witness :
  exists st' evs o row,
    fetch_transactions_from_etherscan empty_db "0xaaa" sample_txlist 0 = (st', evs, o) /\
    transactions st' !! "0xh2" = Some row /\
    exists e, e ∈ tl_result (sample_txlist (lower "0xaaa")) /\ tx_hash e = "0xh2" /\
      status row = String.eqb (tx_isError e) "0".
Proof.
  do 4 eexists. split; [reflexivity|]. split; [reflexivity|].
  eapply (fetch_transactions_status_from_isError empty_db _ _ 0); [reflexivity|reflexivity|reflexivity].
Defined.

(** C8 (as stated: every entry's unknown from/to address gets a row).
    False: an entry is skipped before its addresses are looked at when its
    hash is already stored, and an entry that raises ends the import before
    the later entries are reached. Here the entry for "0xc1" -> "0xc2"
    follows an entry whose timeStamp is not an integer, and, second, an
    entry with the stored hash "0xh1" names the unknown "0xd1". *)
Lemma fetch_transactions_unknown_address_not_created :
  (let '(st', _, _) :=
     fetch_transactions_from_etherscan empty_db "0xc1"
       (txlist_ok [sample_entry "0xh9" "0xb1" "0xb2" "soon" "0";
                   sample_entry "0xh8" "0xc1" "0xc2" "1700000000" "0"]) 0 in
   addresses empty_db !! "0xc1" = None /\ addresses st' !! "0xc1" = None) /\
  (let st0 := (fetch_transactions_from_etherscan empty_db "0xaaa" sample_txlist 0).1.1 in
   let '(st', _, _) :=
     fetch_transactions_from_etherscan st0 "0xaaa"
       (txlist_ok [sample_entry "0xh1" "0xd1" "0xbbb" "1700000000" "0"]) 0 in
   addresses st0 !! "0xd1" = None /\ addresses st' !! "0xd1" = None).
Proof. split; vm_compute; split; reflexivity. Qed.

(** C8 (amended). Every Transaction row an import creates references the
    lowercased [from] and [to] of the entry it was created from, and both
    address rows exist afterwards (created by get-or-create when absent);
    address rows that existed are left as they were, and every address row
    the import creates has balance 0. *)
Theorem fetch_transactions_address_rows st eth_address api now st' evs o :
  fetch_transactions_from_etherscan st eth_address api now = (st', evs, o) ->
  (forall h row, transactions st !! h = None -> transactions st' !! h = Some row ->
     exists e, e ∈ tl_result (api (lower eth_address)) /\ tx_hash e = h /\
       from_address row = lower (tx_from e) /\ to_address row = lower (tx_to e) /\
       is_Some (addresses st' !! from_address row) /\
       is_Some (addresses st' !! to_address row)) /\
  (forall k x, addresses st !! k = Some x -> addresses st' !! k = Some x) /\
  (forall k x, addresses st !! k = None -> addresses st' !! k = Some x ->
     balance x = 0%Q).
Proof.
  unfold fetch_transactions_from_etherscan. intros Hf.
  destruct (negb _).
  { inversion Hf; subst. split; [|split]; intros; congruence. }
  destruct (import_entries st _ now) as [st1 o1] eqn:Hi. inversion Hf; subst st1.
  split; [|split].
  - intros h row H Hr.
    pose proof (import_entries_new_tx (tl_result (api (lower eth_address))) st now h row H)
      as Hn.
    rewrite Hi in Hn. destruct (Hn Hr) as (e & He & Hh & B & Hfa & Hta).
    apply build_transaction_fields in B as (Bf & Bt & _).
    exists e. rewrite Bf, Bt. naive_solver.
  - intros k x Hx.
    pose proof (import_entries_keeps_address (tl_result (api (lower eth_address))) st now k x Hx)
      as Hk.
    by rewrite Hi in Hk.
  - intros k x Hn Hx.
    pose proof (import_entries_new_address (tl_result (api (lower eth_address))) st now k x Hn)
      as Hk.
    rewrite Hi in Hk. by rewrite (Hk Hx).
Qed.

Lemma fetch_transactions_address_rows_witness :
  let '(st', evs, o) := fetch_transactions_from_etherscan empty_db "0xaaa" sample_txlist 0 in
  addresses st' !! "0xaaa" = Some (new_address_row 0) /\
  balance (new_address_row 0) = 0%Q.
Proof.
  destruct (fetch_transactions_from_etherscan empty_db "0xaaa" sample_txlist 0)
    as [[st' evs] o] eqn:Hf.
  destruct (fetch_transactions_address_rows _ _ _ _ _ _ _ Hf) as (_ & _ & Hz).
  assert (Ha : addresses st' !! "0xaaa" = Some (new_address_row 0)).
  { replace st' with (fetch_transactions_from_etherscan empty_db "0xaaa" sample_txlist 0).1.1
      by (rewrite Hf; reflexivity).
    vm_compute. reflexivity. }
  split; [exact Ha|]. exact (Hz "0xaaa" _ eq_refl Ha).
Defined.

(* ------------------------------------------------------------------ *)
(** ** Balance refresh *)

Lemma dec_div_pow10_exact a :
  Z.abs a < 10 ^ 28 -> (dec_div_pow10 a 18 == inject_Z a / inject_Z (10 ^ 18))%Q.
Proof.
  intros Ha. unfold dec_div_pow10. simpl excess_digits.
  replace (Z.abs a <? 10 ^ dec_prec) with true by (symmetry; apply Z.ltb_lt; exact Ha).
  unfold round_half_even_div. rewrite Z.pow_0_r, Z.div_1_r, Z.mod_1_r. simpl.
  rewrite Z.mul_1_r, (Z.mul_comm (Z.sgn a)), Z.abs_sgn.
  unfold Qeq, Qdiv, Qmult, Qinv. simpl. lia.
Qed.

(** C3 (as stated: every status "1" answer stores result / 10^18).
    False: [Decimal] division rounds to 28 significant digits, so a result
    of 10^28 + 1 wei is stored as exactly 10^10, not 10^10 + 10^-18. *)
Lemma update_address_balance_rounds :
  let '(st', address', _, o) :=
    update_address_balance empty_db "0xaaa" (new_address_row 0)
      (balance_ok "10000000000000000000000000001") 5 in
  o = inr tt /\
  ~ (balance address' == inject_Z 10000000000000000000000000001 / inject_Z (10 ^ 18))%Q /\
  (balance address' == inject_Z 10000000000)%Q.
Proof. vm_compute. split; [reflexivity|split; [intros H; discriminate H|reflexivity]]. Qed.

(** C3 (amended). For a status "1" answer whose result is an integer below
    10^28 in absolute value (at most 28 digits), the stored balance is
    exactly result / 10^18, the object written back is the one returned, and
    [last_updated] is the current time. *)
Theorem update_address_balance_exact st key address api now a :
  bal_status (api key) = "1" ->
  decimal_of_string (bal_result (api key)) = Some a ->
  Z.abs a < 10 ^ 28 ->
  let '(st', address', _, o) := update_address_balance st key address api now in
  o = inr tt /\ addresses st' !! key = Some address' /\
  (balance address' == inject_Z a / inject_Z (10 ^ 18))%Q /\ last_updated address' = now.
Proof.
  intros Hs Hd Ha. unfold update_address_balance.
  rewrite Hs, Hd. simpl.
  split; [done|]. split; [by rewrite lookup_insert_eq|].
  split; [by apply dec_div_pow10_exact|done].
Qed.

(** One ether: a result of 10^18 wei is stored as 1. *)
Lemma update_address_balance_exact_witness :
  let '(st', address', _, o) :=
    update_address_balance empty_db "0xaaa" (new_address_row 0)
      (balance_ok "1000000000000000000") 5 in
  o = inr tt /\ addresses st' !! "0xaaa" = Some address' /\
  (balance address' == inject_Z 1000000000000000000 / inject_Z (10 ^ 18))%Q /\
  last_updated address' = 5 /\ (balance address' == 1)%Q.
Proof.
  pose proof (update_address_balance_exact empty_db "0xaaa" (new_address_row 0)
                (balance_ok "1000000000000000000") 5 1000000000000000000
                eq_refl eq_refl ltac:(vm_compute; reflexivity)) as H.
  simpl in H |- *. destruct H as (H1 & H2 & H3 & H4).
  split; [exact H1|]. split; [exact H2|]. split; [exact H3|]. split; [exact H4|].
  vm_compute. reflexivity.
Defined.

(** C4. On a non-success status the balance refresh raises
    [ValueError], while the transaction import only prints a line and
    returns normally, leaving the store unchanged. *)
Theorem api_failure_policies st key address bapi tapi now :
  bal_status (bapi key) <> "1" ->
  tl_status (tapi (lower key)) <> "1" ->
  (update_address_balance st key address bapi now).2 =
    inl (ValueError "Failed to fetch balance from Etherscan") /\
  fetch_transactions_from_etherscan st key tapi now =
    (st, [GetTxlist (lower key); Stdout "No transactions found or API error"], inr tt).
Proof.
  intros Hb Ht. unfold update_address_balance, fetch_transactions_from_etherscan.
  apply String.eqb_neq in Hb, Ht. rewrite Hb, Ht. done.
Qed.

Lemma api_failure_policies_witness :
  bal_status (balance_error "0xaaa") <> "1" /\
  tl_status (txlist_error (lower "0xaaa")) <> "1" /\
  (update_address_balance empty_db "0xaaa" (new_address_row 0) balance_error 5).2 =
    inl (ValueError "Failed to fetch balance from Etherscan") /\
  fetch_transactions_from_etherscan empty_db "0xaaa" txlist_error 5 =
    (empty_db, [GetTxlist (lower "0xaaa"); Stdout "No transactions found or API error"],
     inr tt).
Proof.
  assert (Hb : bal_status (balance_error "0xaaa") <> "1") by discriminate.
  assert (Ht : tl_status (txlist_error (lower "0xaaa")) <> "1") by discriminate.
  split; [exact Hb|]. split; [exact Ht|].
  exact (api_failure_policies empty_db "0xaaa" (new_address_row 0) balance_error txlist_error 5
           Hb Ht).
Defined.

(** C10. When the status is not "1", [update_address_balance] raises
    without writing: the store and the in-memory object are unchanged. *)
Theorem update_address_balance_error_no_write st key address api now :
  bal_status (api key) <> "1" ->
  update_address_balance st key address api now =
    (st, address, [GetBalance key], inl (ValueError "Failed to fetch balance from Etherscan")).
Proof.
  intros Hb. unfold update_address_balance. apply String.eqb_neq in Hb. by rewrite Hb.
Qed.

Lemma update_address_balance_error_no_write_witness :
  bal_status (balance_error "0xaaa") <> "1" /\
  update_address_balance empty_db "0xaaa" (new_address_row 0) balance_error 5 =
    (empty_db, new_address_row 0, [GetBalance "0xaaa"],
     inl (ValueError "Failed to fetch balance from Etherscan")).
Proof.
  assert (Hb : bal_status (balance_error "0xaaa") <> "1") by discriminate.
  split; [exact Hb|].
  exact (update_address_balance_error_no_write empty_db "0xaaa" (new_address_row 0)
           balance_error 5 Hb).
Defined.

(* ------------------------------------------------------------------ *)
(** ** The address detail view *)

Lemma has_any_spec st k :
  has_any st k = true <->
  exists h t, transactions st !! h = Some t /\ (from_address t = k \/ to_address t = k).
Proof.
  unfold has_any, references. rewrite existsb_exists. split.
  - intros [[h t] [Hin Hr]]. simpl in Hr.
    apply list_elem_of_In, fin_maps.elem_of_map_to_list in Hin.
    exists h, t. split; [done|].
    apply orb_true_iff in Hr as [Hr|Hr]; apply String.eqb_eq in Hr; auto.
  - intros (h & t & Hr & Hk). exists (h, t). split.
    + by apply list_elem_of_In, fin_maps.elem_of_map_to_list.
    + simpl. apply orb_true_iff. destruct Hk as [Hk|Hk]; [left|right];
        by apply String.eqb_eq.
Qed.

Lemma fetch_transactions_first_event st eth_address api now :
  exists rest, (fetch_transactions_from_etherscan st eth_address api now).1.2 =
               GetTxlist (lower eth_address) :: rest.
Proof.
  unfold fetch_transactions_from_etherscan.
  destruct (negb _); [by eexists|].
  destruct (import_entries _ _ _). by eexists.
Qed.

(** C9. For a stored address, the view asks Etherscan for the address's
    transactions exactly when no Transaction row has it as sender or
    receiver; otherwise it writes nothing, makes no request and renders the
    stored rows. *)
Theorem address_detail_fetch_iff_no_transactions st address api now eth_address :
  addresses st !! address = Some eth_address ->
  let '(st', evs, res) := address_detail st address api now in
  (GetTxlist (lower address) ∈ evs <->
     ~ exists h t, transactions st !! h = Some t /\
                   (from_address t = address \/ to_address t = address)) /\
  ((exists h t, transactions st !! h = Some t /\
                (from_address t = address \/ to_address t = address)) ->
     st' = st /\ evs = [] /\ res = inr (detail_context_of st address eth_address)).
Proof.
  intros H. unfold address_detail. rewrite H.
  destruct (has_any st address) eqn:Ha.
  - apply has_any_spec in Ha. split.
    + split; [intros Hin; by apply not_elem_of_nil in Hin | by intros Hn].
    + done.
  - assert (Hn : ~ exists h t, transactions st !! h = Some t /\
                   (from_address t = address \/ to_address t = address))
      by (rewrite <- has_any_spec; congruence).
    destruct (fetch_transactions_first_event st address api now) as [rest Hev].
    destruct (fetch_transactions_from_etherscan st address api now) as [[st' evs] o].
    simpl in Hev. subst evs.
    destruct o; (split; [split; [done|intros _; apply list_elem_of_here]|done]).
Qed.

Lemma address_detail_fetch_iff_no_transactions_witness :
  let st := (fetch_transactions_from_etherscan empty_db "0xaaa" sample_txlist 0).1.1 in
  addresses st !! "0xaaa" = Some (new_address_row 0) /\
  let '(st', evs, res) := address_detail st "0xaaa" txlist_error 1 in
  (GetTxlist (lower "0xaaa") ∈ evs <->
     ~ exists h t, transactions st !! h = Some t /\
                   (from_address t = "0xaaa" \/ to_address t = "0xaaa")) /\
  ((exists h t, transactions st !! h = Some t /\
                (from_address t = "0xaaa" \/ to_address t = "0xaaa")) ->
     st' = st /\ evs = [] /\ res = inr (detail_context_of st "0xaaa" (new_address_row 0))).
Proof.
  intros st.
  assert (H : addresses st !! "0xaaa" = Some (new_address_row 0))
    by (vm_compute; reflexivity).
  split; [exact H|].
  exact (address_detail_fetch_iff_no_transactions st "0xaaa" txlist_error 1 _ H).
Defined.

(** The two counts of the context are lengths of the 20-row windows. *)
Lemma detail_counts_le_20 st k eth_address :
  (outgoing_count (detail_context_of st k eth_address) <= 20 /\
   incoming_count (detail_context_of st k eth_address) <= 20 /\
   length (ctx_transactions (detail_context_of st k eth_address)) <= 20)%nat.
Proof. cbn [outgoing_count incoming_count ctx_transactions detail_context_of]. unfold outgoing_txs, incoming_txs. rewrite !length_take. lia. Qed.

(** C7. With 21 outgoing transactions stored for "0xaaa", the view shows
    20 merged rows, but reports an outgoing count of 20, not the total 21:
    [outgoing_txs.count()] counts the sliced queryset. *)
Theorem address_detail_counts_capped :
  length (outgoing_rows busy_db "0xaaa") = 21%nat /\
  match address_detail busy_db "0xaaa" txlist_error 0 with
  | (st', evs, inr ctx) =>
      st' = busy_db /\ evs = [] /\
      outgoing_count ctx = 20%nat /\ length (ctx_transactions ctx) = 20%nat
  | _ => False
  end.
Proof. vm_compute. repeat split. Qed.

(* ------------------------------------------------------------------ *)
(** ** Address form validation *)

Lemma length_string_of_list_ascii l : String.length (string_of_list_ascii l) = length l.
Proof. induction l; simpl; congruence. Qed.

Lemma strip_0x_length l rest : strip_0x l = Some rest -> length l = (2 + length rest)%nat.
Proof.
  destruct l as [|c0 [|c1 l]]; simpl; try discriminate.
  destruct (ascii_dec c0 "0"), (ascii_dec c1 "x"); intros H; inversion H; done.
Qed.

Lemma strip_0x_no_null l rest :
  strip_0x l = Some rest -> forallb is_hex rest = true ->
  existsb (fun c => (nat_of_ascii c =? 0)%nat) l = false.
Proof.
  destruct l as [|c0 [|c1 l]]; simpl; try discriminate.
  destruct (ascii_dec c0 "0"), (ascii_dec c1 "x"); intros H; inversion H; subst; try done.
  simpl. induction rest as [|c rest IH]; simpl; [done|].
  intros Hh. apply andb_true_iff in Hh as [Hc Hr].
  apply orb_false_iff. split; [|by apply IH].
  unfold is_hex in Hc. destruct (nat_of_ascii c); [discriminate|done].
Qed.

(** [clean_address] taken alone lets a final newline through ([$]); the
    field's stripping and max-length check run before it. *)
Example clean_address_trailing_newline :
  clean_address "0x1111111111111111111111111111111111111111
" = inr "0x1111111111111111111111111111111111111111
" /\
  address_field_clean "0x1111111111111111111111111111111111111111
" = inr "0x1111111111111111111111111111111111111111".
Proof. split; vm_compute; reflexivity. Qed.

(** C5 (as stated: every input not of the form 0x + 40 hex is rejected).
    False: the field strips surrounding whitespace first, so a valid
    address with a leading space is accepted. *)
Lemma address_field_accepts_padded :
  is_eth_address " 0x1111111111111111111111111111111111111111" = false /\
  address_field_clean " 0x1111111111111111111111111111111111111111" =
    inr "0x1111111111111111111111111111111111111111".
Proof. split; vm_compute; reflexivity. Qed.

(** C5 (amended). The address field strips surrounding whitespace; the
    stripped value is accepted exactly when it is "0x" followed by 40 hex
    digits, and is then returned lowercased. *)
Theorem address_field_validation raw :
  match address_field_clean raw with
  | inr v => is_eth_address (py_strip raw) = true /\ v = lower (py_strip raw)
  | inl _ => is_eth_address (py_strip raw) = false
  end.
Proof.
  unfold address_field_clean, clean_address, is_eth_address, py_strip.
  generalize (py_strip_list (list_ascii_of_string raw)) as L. intros L.
  rewrite !list_ascii_of_string_of_list_ascii, length_string_of_list_ascii.
  destruct L as [|c0 L]; [done|].
  cbn [String.eqb string_of_list_ascii].
  destruct (42 <? length (c0 :: L))%nat eqn:Hlen.
  { apply Nat.ltb_lt in Hlen.
    destruct (strip_0x (c0 :: L)) as [rest|] eqn:Hs; [|done].
    apply strip_0x_length in Hs.
    destruct (length rest =? 40)%nat eqn:E; [|done].
    apply Nat.eqb_eq in E. lia. }
  apply Nat.ltb_ge in Hlen.
  destruct (existsb _ (c0 :: L)) eqn:Hn.
  { destruct (strip_0x (c0 :: L)) as [rest|] eqn:Hs; [|done].
    destruct (length rest =? 40)%nat; [|done]. simpl.
    destruct (forallb is_hex rest) eqn:Hh; [|done].
    rewrite (strip_0x_no_null _ _ Hs Hh) in Hn. discriminate. }
  unfold re_match_eth.
  destruct (strip_0x (c0 :: L)) as [rest|] eqn:Hs; [|done].
  pose proof (strip_0x_length _ _ Hs) as Hl.
  rewrite (take_ge rest 40), (drop_ge rest 40) by lia.
  rewrite andb_true_r.
  by destruct ((length rest =? 40)%nat && forallb is_hex rest).
Qed.

(* ------------------------------------------------------------------ *)
(** ** Watchlist membership *)

Module MembershipProps.
Import Membership.

Lemma m2m_add_nodup rows a w now :
  NoDup (map awl_key rows) -> NoDup (map awl_key (m2m_add rows a w now)).
Proof.
  intros Hd. unfold m2m_add.
  destruct (existsb (row_is a w) rows) eqn:E; [done|].
  rewrite map_app. simpl. apply NoDup_app. split; [done|]. split; [|apply NoDup_singleton].
  intros x Hx Hx'. apply list_elem_of_singleton in Hx'. subst x.
  apply list_elem_of_In, in_map_iff in Hx as [r [Hr Hin]].
  assert (Hrow : row_is a w r = true).
  { unfold awl_key in Hr. inversion Hr. unfold row_is. by rewrite !Nat.eqb_refl. }
  assert (existsb (row_is a w) rows = true) by (apply existsb_exists; eauto).
  congruence.
Qed.

(** Adding a pair that is already a member changes nothing. *)
Lemma m2m_add_twice rows a w now now' :
  m2m_add (m2m_add rows a w now) a w now' = m2m_add rows a w now.
Proof.
  unfold m2m_add. destruct (existsb (row_is a w) rows) eqn:E.
  - by rewrite E.
  - rewrite existsb_app, E. simpl. unfold row_is. simpl. by rewrite !Nat.eqb_refl.
Qed.

(** C6. Starting from a through table with at most one row per
    (address, watchlist) pair, any sequence of [add] calls keeps at most
    one row per pair. *)
Theorem membership_unique_after_adds rows ops :
  NoDup (map awl_key rows) -> NoDup (map awl_key (m2m_add_all rows ops)).
Proof.
  revert rows. induction ops as [|[[a w] t] ops IH]; intros rows Hd; simpl; [done|].
  apply IH. by apply m2m_add_nodup.
Qed.

Lemma membership_unique_after_adds_witness :
  NoDup (map awl_key []) /\
  NoDup (map awl_key (m2m_add_all [] [(1%nat, 1%nat, 0); (1%nat, 1%nat, 5); (2%nat, 1%nat, 6); (1%nat, 1%nat, 7)])) /\
  length (m2m_add_all [] [(1%nat, 1%nat, 0); (1%nat, 1%nat, 5); (2%nat, 1%nat, 6); (1%nat, 1%nat, 7)]) = 2%nat.
Proof.
  assert (H0 : NoDup (map awl_key [])) by constructor.
  split; [exact H0|]. split; [|reflexivity].
  exact (membership_unique_after_adds [] _ H0).
Defined.

End MembershipProps.

(* ------------------------------------------------------------------ *)
(** ** Insertion sorts: [order_by] and [list.sort] *)

(** The stable insertion sorts of the file ([insert_desc],
    [insert_by_balance]) share one shape: [x] goes before the first element
    it is strictly greater than. [precedes x y] says [x] may stand before
    [y] in the result. *)
Lemma sorted_mono {A} (R R' : A -> A -> Prop) l :
  (forall x y, R x y -> R' x y) -> Sorted R l -> Sorted R' l.
Proof.
  intros HR Hs. induction Hs as [|a l Hs IH Hd]; constructor; [done|].
  destruct Hd; constructor. by apply HR.
Qed.

Section InsertionSort.
Context {A : Type} (gt : A -> A -> bool) (ins : A -> list A -> list A).
Hypothesis ins_nil : forall x, ins x [] = [x].
Hypothesis ins_cons : forall x y r,
  ins x (y :: r) = if gt x y then x :: y :: r else y :: ins x r.
Hypothesis gt_asym : forall x y, gt x y = true -> gt y x = false.
Hypothesis ngt_trans : forall x y z, gt y x = false -> gt z y = false -> gt z x = false.

Local Abbreviation precedes := (fun x y => gt y x = false).

Lemma ins_perm x l : ins x l ≡ₚ x :: l.
Proof.
  induction l as [|y r IH]; [by rewrite ins_nil|].
  rewrite ins_cons. destruct (gt x y); [done|].
  rewrite IH. apply perm_swap.
Qed.

Lemma ins_hdrel z x l : precedes z x -> HdRel precedes z l -> HdRel precedes z (ins x l).
Proof.
  intros Hzx Hl. destruct l as [|y r].
  - rewrite ins_nil. by constructor.
  - rewrite ins_cons. destruct (gt x y); constructor; [done|]. by inversion Hl.
Qed.

Lemma ins_sorted x l : Sorted precedes l -> Sorted precedes (ins x l).
Proof.
  induction l as [|y r IH]; intros Hs.
  - rewrite ins_nil. by repeat constructor.
  - rewrite ins_cons. destruct (gt x y) eqn:Hxy.
    + constructor; [done|]. constructor. by apply gt_asym.
    + inversion Hs as [|? ? Hr Hyr]; subst. constructor; [by apply IH|].
      by apply ins_hdrel.
Qed.

Lemma isort_perm l acc : fold_left (fun acc x => ins x acc) l acc ≡ₚ l ++ acc.
Proof.
  revert acc. induction l as [|x l IH]; intros acc; [done|].
  simpl. rewrite IH, ins_perm. by rewrite Permutation_middle.
Qed.

Lemma isort_sorted l acc :
  Sorted precedes acc -> Sorted precedes (fold_left (fun acc x => ins x acc) l acc).
Proof.
  revert acc. induction l as [|x l IH]; intros acc Hs; [done|].
  simpl. apply IH. by apply ins_sorted.
Qed.

Lemma sorted_take_drop k l x y :
  Sorted precedes l -> x ∈ take k l -> y ∈ drop k l -> precedes x y.
Proof.
  intros Hs. apply (Sorted_StronglySorted (R:=precedes)) in Hs;
    [|intros a b c Hab Hbc; exact (ngt_trans a b c Hab Hbc)].
  revert k. induction Hs as [|a l Hs IH Hall]; intros k Hx Hy.
  - destruct k; simpl in Hx; by apply elem_of_nil in Hx.
  - destruct k as [|k]; [by apply elem_of_nil in Hx|].
    simpl in Hx, Hy. apply elem_of_cons in Hx as [->|Hx]; [|by eapply IH].
    rewrite Forall_forall in Hall. apply Hall.
    rewrite <- (take_drop k l). apply elem_of_app. by right.
Qed.

(** The first [k] elements of the sorted list, and what is left out. *)
Lemma isort_top l k :
  let s := fold_left (fun acc x => ins x acc) l [] in
  take k s ++ drop k s ≡ₚ l /\ length (take k s) = Nat.min k (length l) /\
  Sorted precedes (take k s) /\
  (forall x y, x ∈ take k s -> y ∈ drop k s -> precedes x y).
Proof.
  intros s.
  assert (Hp : s ≡ₚ l) by (unfold s; rewrite isort_perm; by rewrite app_nil_r).
  assert (Hs : Sorted precedes s) by (apply isort_sorted; constructor).
  split; [by rewrite take_drop|]. split; [by rewrite length_take, Hp|].
  split.
  - rewrite <- (take_drop k s) in Hs. clear -Hs. induction (take k s) as [|a t IH]; [constructor|].
    simpl in Hs. inversion Hs as [|? ? H1 H2]; subst. constructor; [by apply IH|].
    destruct t; constructor. by inversion H2.
  - intros x y. by apply sorted_take_drop.
Qed.

End InsertionSort.

Lemma sort_by_timestamp_desc_top l k :
  let s := sort_by_timestamp_desc l in
  take k s ++ drop k s ≡ₚ l /\ length (take k s) = Nat.min k (length l) /\
  Sorted newer_or_equal (take k s) /\
  (forall x y, x ∈ take k s -> y ∈ drop k s -> newer_or_equal x y).
Proof.
  pose proof (isort_top (fun x y => timestamp y <? timestamp x) insert_desc
                (fun _ => eq_refl) (fun _ _ _ => eq_refl)) as H.
  specialize (H ltac:(intros x y Hxy; apply Z.ltb_lt in Hxy; apply Z.ltb_ge; lia)
                 ltac:(intros x y z Hxy Hyz; apply Z.ltb_ge in Hxy, Hyz; apply Z.ltb_ge; lia)).
  destruct (H l k) as (H1 & H2 & H3 & H4). unfold sort_by_timestamp_desc.
  assert (Heq : forall x y, (timestamp x <? timestamp y) = false <-> newer_or_equal x y).
  { intros x y. unfold newer_or_equal. rewrite Z.ltb_ge. lia. }
  split; [done|]. split; [done|]. split.
  - eapply sorted_mono; [|exact H3]. intros x y. apply Heq.
  - intros x y Hx Hy. apply Heq. by apply H4.
Qed.

Lemma sort_by_balance_top l k :
  let s := fold_left (fun acc x => insert_by_balance x acc) l [] in
  take k s ++ drop k s ≡ₚ l /\ length (take k s) = Nat.min k (length l) /\
  Sorted richer_or_equal (take k s) /\
  (forall x y, x ∈ take k s -> y ∈ drop k s -> richer_or_equal x y).
Proof.
  pose proof (isort_top (fun x y => negb (Qle_bool (balance x.2) (balance y.2)))
                insert_by_balance (fun _ => eq_refl) (fun _ _ _ => eq_refl)) as H.
  assert (Heq : forall x y,
    negb (Qle_bool (balance y.2) (balance x.2)) = false <-> richer_or_equal x y).
  { intros x y. unfold richer_or_equal. rewrite <- Qle_bool_iff. by destruct Qle_bool. }
  specialize (H ltac:(intros x y Hxy; apply negb_true_iff, not_true_iff_false in Hxy;
                      rewrite Qle_bool_iff in Hxy; apply Qnot_le_lt in Hxy;
                      apply negb_false_iff, Qle_bool_iff, Qlt_le_weak, Hxy)
                 ltac:(intros x y z Hxy Hyz; apply negb_false_iff, Qle_bool_iff in Hxy, Hyz;
                       apply negb_false_iff, Qle_bool_iff; eapply Qle_trans; eassumption)).
  destruct (H l k) as (H1 & H2 & H3 & H4).
  split; [done|]. split; [done|]. split.
  - eapply sorted_mono; [|exact H3]. intros x y. apply Heq.
  - intros x y Hx Hy. apply Heq. by apply H4.
Qed.

Lemma elem_of_take_sub {A} (x : A) n l : x ∈ take n l -> x ∈ l.
Proof. intros H. rewrite <- (take_drop n l). apply elem_of_app. by left. Qed.

Lemma length_filter_prod_fst {A B} (f : A -> bool) (l : list A) (l' : list B) :
  length (List.filter (fun r => f r.1) (list_prod l l')) =
  (length (List.filter f l) * length l')%nat.
Proof.
  induction l as [|a l IH]; [done|]. simpl. rewrite List.filter_app, length_app, IH.
  assert (Hm : length (List.filter (fun r => f r.1) (map (fun y => (a, y)) l')) =
                if f a then length l' else 0%nat).
  { clear IH. induction l' as [|b l' IH']; simpl; [by destruct (f a)|].
    destruct (f a); simpl; by rewrite IH'. }
  rewrite Hm. destruct (f a); simpl; lia.
Qed.

Lemma length_filter_prod_snd {A B} (g : B -> bool) (l : list A) (l' : list B) :
  length (List.filter (fun r => g r.2) (list_prod l l')) =
  (length l * length (List.filter g l'))%nat.
Proof.
  induction l as [|a l IH]; [done|]. simpl. rewrite List.filter_app, length_app, IH.
  assert (Hm : length (List.filter (fun r => g r.2) (map (fun y => (a, y)) l')) =
                length (List.filter g l')).
  { clear IH. induction l' as [|b l' IH']; simpl; [done|].
    destruct (g b); simpl; by rewrite IH'. }
  by rewrite Hm.
Qed.

Lemma left_join_counts {A} (l : list A) :
  length (left_join l) = Nat.max 1 (length l) /\
  length (List.filter (fun o => bool_decide (is_Some o)) (left_join l)) = length l.
Proof.
  destruct l as [|a l]; [done|]. unfold left_join. split.
  - rewrite length_map. simpl. lia.
  - rewrite <- (length_map Some (a :: l)). generalize (a :: l). intros l'.
    induction l' as [|b l' IH]; simpl; [done|]. by rewrite IH.
Qed.

Ltac rewrite_join_counts :=
  let Hf := fresh in let Hs := fresh in
  pose proof (@length_filter_prod_fst _ (option Transaction)
                (fun o : option Transaction => bool_decide (is_Some o)))
    as Hf;
  pose proof (@length_filter_prod_snd (option Transaction) _
                (fun o : option Transaction => bool_decide (is_Some o)))
    as Hs;
  cbv beta in Hf, Hs; rewrite Hf, Hs; clear Hf Hs.

(* ------------------------------------------------------------------ *)
(** ** The home page *)

(** [recent_transactions] holds the ten newest transactions of the store,
    newest first: with the rows left out it makes up the whole table, and
    no row left out is newer than a row shown. *)
Theorem home_recent_transactions_newest st :
  let recent := home_recent_transactions (home st) in
  (exists rest, recent ++ rest ≡ₚ table_rows st /\
     forall x y, x ∈ recent -> y ∈ rest -> (timestamp y <= timestamp x)%Z) /\
  length recent = Nat.min 10 (length (table_rows st)) /\
  Sorted newer_or_equal recent.
Proof.
  simpl. unfold recent_transactions.
  destruct (sort_by_timestamp_desc_top (table_rows st) 10) as (H1 & H2 & H3 & H4).
  split; [|done]. eexists. split; [exact H1|]. exact H4.
Qed.

(** [top_addresses] holds the five addresses with the highest balance,
    highest first. *)
Theorem home_top_addresses_richest st :
  let top := map fst (home_top_addresses (home st)) in
  (exists rest, top ++ rest ≡ₚ map_to_list (addresses st) /\
     forall x y, x ∈ top -> y ∈ rest -> (balance y.2 <= balance x.2)%Q) /\
  length top = Nat.min 5 (length (map_to_list (addresses st))) /\
  Sorted richer_or_equal top.
Proof.
  simpl. unfold top_addresses. rewrite map_map. simpl.
  assert (Hid : forall l : list (string * EthereumAddress), map (fun x => (x.1, x.2)) l = l).
  { induction l as [|[??] l IH]; simpl; congruence. }
  rewrite Hid.
  destruct (sort_by_balance_top (map_to_list (addresses st)) 5) as (H1 & H2 & H3 & H4).
  split; [|done]. eexists. split; [exact H1|]. exact H4.
Qed.

(** The [tx_count] shown for an address with [o] outgoing and [i] incoming
    transactions is [o * max(1, i) + i * max(1, o)]: the two [Count]s run
    over the rows of one double [LEFT OUTER JOIN]. *)
Theorem home_tx_count_join st k a n :
  (k, a, n) ∈ home_top_addresses (home st) ->
  let o := length (outgoing_rows st k) in
  let i := length (incoming_rows st k) in
  n = (o * Nat.max 1 i + i * Nat.max 1 o)%nat.
Proof.
  intros Hin. simpl in Hin. unfold top_addresses in Hin.
  apply list_elem_of_In, in_map_iff in Hin as ([k' a'] & Heq & _). simplify_eq/=.
  unfold tx_count.
  rewrite_join_counts.
  destruct (left_join_counts (outgoing_rows st k)) as [Ho1 Ho2].
  destruct (left_join_counts (incoming_rows st k)) as [Hi1 Hi2].
  rewrite Ho2, Hi2, Ho1, Hi1. lia.
Qed.

Lemma home_tx_count_join_witness :
  ("0xaaa", new_address_row 0, 4%nat) ∈ home_top_addresses (home two_way_db) /\
  length (outgoing_rows two_way_db "0xaaa") = 2%nat /\
  length (incoming_rows two_way_db "0xaaa") = 1%nat /\
  4%nat = (2 * Nat.max 1 1 + 1 * Nat.max 1 2)%nat.
Proof.
  assert (Hin : ("0xaaa", new_address_row 0, 4%nat) ∈ home_top_addresses (home two_way_db)).
  { assert (Heq : home_top_addresses (home two_way_db) =
      [("0xaaa", new_address_row 0, 4%nat); ("0xbbb", new_address_row 0, 4%nat)])
      by (vm_compute; reflexivity).
    rewrite Heq. apply list_elem_of_here. }
  split; [exact Hin|].
  pose proof (home_tx_count_join two_way_db "0xaaa" (new_address_row 0) 4 Hin) as H.
  split; [vm_compute; reflexivity|]. split; [vm_compute; reflexivity|]. exact H.
Defined.

(** [tx_count] equals the number of outgoing plus incoming transactions
    only when one side is empty or both sides hold exactly one. *)
Theorem tx_count_exact_iff st k :
  let o := length (outgoing_rows st k) in
  let i := length (incoming_rows st k) in
  tx_count st k = (o + i)%nat <-> o = 0%nat \/ i = 0%nat \/ (o = 1 /\ i = 1)%nat.
Proof.
  simpl. unfold tx_count. rewrite_join_counts.
  destruct (left_join_counts (outgoing_rows st k)) as [Ho1 Ho2].
  destruct (left_join_counts (incoming_rows st k)) as [Hi1 Hi2].
  rewrite Ho2, Hi2, Ho1, Hi1.
  generalize (length (outgoing_rows st k)), (length (incoming_rows st k)). intros o i.
  split; [|intros [->|[->|[-> ->]]]; lia].
  intros H. destruct o as [|[|o]]; [by left| |]; destruct i as [|[|i]];
    try (by right; left); try (by right; right); exfalso; nia.
Qed.

(* ------------------------------------------------------------------ *)
(** ** The balance endpoint *)

(** An address that is not stored is answered with a 400 JSON error: the
    [Http404] of [get_object_or_404] is caught by [except Exception]. No
    request is made and nothing is written. *)
Theorem api_address_balance_unknown st address api now :
  addresses st !! address = None ->
  api_address_balance st address api now =
    (st, [], JsonError "No EthereumAddress matches the given query.").
Proof. intros H. unfold api_address_balance. by rewrite H. Qed.

Lemma api_address_balance_unknown_witness :
  addresses empty_db !! "0xaaa" = None /\
  api_address_balance empty_db "0xaaa" (balance_ok "1") 0 =
    (empty_db, [], JsonError "No EthereumAddress matches the given query.").
Proof.
  assert (H : addresses empty_db !! "0xaaa" = None) by reflexivity.
  split; [exact H|]. exact (api_address_balance_unknown empty_db "0xaaa" (balance_ok "1") 0 H).
Defined.

(** Whenever the endpoint answers with an error, the store is unchanged. *)
Theorem api_address_balance_error_no_write st address api now :
  match api_address_balance st address api now with
  | (st', _, JsonError _) => st' = st
  | _ => True
  end.
Proof.
  unfold api_address_balance. destruct (addresses st !! address) as [e|]; [|done].
  unfold update_address_balance. destruct (String.eqb _ _); [|done].
  by destruct (decimal_of_string _).
Qed.

(** A stored address whose balance request fails is answered with the
    error "Failed to fetch balance from Etherscan", after one request. *)
Theorem api_address_balance_api_failure st address api now e :
  addresses st !! address = Some e ->
  bal_status (api address) <> "1" ->
  api_address_balance st address api now =
    (st, [GetBalance address], JsonError "Failed to fetch balance from Etherscan").
Proof.
  intros He Hs. unfold api_address_balance. rewrite He.
  unfold update_address_balance. apply String.eqb_neq in Hs. by rewrite Hs.
Qed.

Lemma api_address_balance_api_failure_witness :
  addresses busy_db !! "0xaaa" = Some (new_address_row 0) /\
  bal_status (balance_error "0xaaa") <> "1" /\
  api_address_balance busy_db "0xaaa" balance_error 0 =
    (busy_db, [GetBalance "0xaaa"], JsonError "Failed to fetch balance from Etherscan").
Proof.
  assert (He : addresses busy_db !! "0xaaa" = Some (new_address_row 0)) by (vm_compute; reflexivity).
  assert (Hs : bal_status (balance_error "0xaaa") <> "1") by discriminate.
  split; [exact He|]. split; [exact Hs|].
  exact (api_address_balance_api_failure busy_db "0xaaa" balance_error 0 _ He Hs).
Defined.

(** On success (status "1", an integer result below 10^28 in absolute
    value) the endpoint answers with the address, the new balance
    result / 10^18 and the current time, and the stored row carries that
    balance and time with its label and contract flag kept. *)
Theorem api_address_balance_success st address api now e a :
  addresses st !! address = Some e ->
  bal_status (api address) = "1" ->
  decimal_of_string (bal_result (api address)) = Some a ->
  Z.abs a < 10 ^ 28 ->
  exists e',
    api_address_balance st address api now =
      (set_addresses (<[address := e']> (addresses st)) st, [GetBalance address],
       JsonBalance address (balance e') now) /\
    (balance e' == inject_Z a / inject_Z (10 ^ 18))%Q /\
    last_updated e' = now /\ label e' = label e /\ is_contract e' = is_contract e.
Proof.
  intros He Hs Hd Ha. unfold api_address_balance. rewrite He.
  unfold update_address_balance. rewrite Hs, Hd. simpl.
  exists {| label := label e; balance := dec_div_pow10 a 18; last_updated := now;
            is_contract := is_contract e |}.
  split; [reflexivity|]. simpl.
  split; [by apply dec_div_pow10_exact|done].
Qed.

Lemma api_address_balance_success_witness :
  addresses busy_db !! "0xaaa" = Some (new_address_row 0) /\
  bal_status (balance_ok "2500000000000000000" "0xaaa") = "1" /\
  decimal_of_string (bal_result (balance_ok "2500000000000000000" "0xaaa")) =
    Some 2500000000000000000 /\
  Z.abs 2500000000000000000 < 10 ^ 28 /\
  exists e',
    api_address_balance busy_db "0xaaa" (balance_ok "2500000000000000000") 7 =
      (set_addresses (<[ "0xaaa" := e']> (addresses busy_db)) busy_db, [GetBalance "0xaaa"],
       JsonBalance "0xaaa" (balance e') 7) /\
    (balance e' == inject_Z 2500000000000000000 / inject_Z (10 ^ 18))%Q /\
    last_updated e' = 7 /\ label e' = label (new_address_row 0) /\
    is_contract e' = is_contract (new_address_row 0).
Proof.
  assert (He : addresses busy_db !! "0xaaa" = Some (new_address_row 0)) by (vm_compute; reflexivity).
  assert (Hs : bal_status (balance_ok "2500000000000000000" "0xaaa") = "1") by reflexivity.
  assert (Hd : decimal_of_string (bal_result (balance_ok "2500000000000000000" "0xaaa")) =
                 Some 2500000000000000000) by (vm_compute; reflexivity).
  assert (Ha : Z.abs 2500000000000000000 < 10 ^ 28) by (vm_compute; reflexivity).
  split; [exact He|]. split; [exact Hs|]. split; [exact Hd|]. split; [exact Ha|].
  exact (api_address_balance_success busy_db "0xaaa" (balance_ok "2500000000000000000") 7
           _ _ He Hs Hd Ha).
Defined.

(* ------------------------------------------------------------------ *)
(** ** The address detail view: the listed transactions *)

Lemma sort_by_timestamp_desc_perm l : sort_by_timestamp_desc l ≡ₚ l.
Proof. destruct (sort_by_timestamp_desc_top l 0) as [H _]. exact H. Qed.

Lemma address_detail_context st address api now st' evs ctx :
  address_detail st address api now = (st', evs, inr ctx) ->
  exists e, addresses st !! address = Some e /\ ctx = detail_context_of st' address e.
Proof.
  unfold address_detail. destruct (addresses st !! address) as [e|]; [|done].
  destruct (has_any st address).
  - intros [= <- <- <-]. by exists e.
  - destruct (fetch_transactions_from_etherscan st address api now) as [[st1 evs1] [x|u]];
      [done|]. intros [= <- <- <-]. by exists e.
Qed.

Lemma window_rows st k x :
  (x ∈ outgoing_txs st k -> from_address x = k) /\ (x ∈ incoming_txs st k -> to_address x = k).
Proof.
  unfold outgoing_txs, incoming_txs. split; intros Hx;
    apply elem_of_take_sub in Hx; rewrite sort_by_timestamp_desc_perm in Hx;
    apply list_elem_of_In, filter_In in Hx as [_ Hx]; by apply String.eqb_eq.
Qed.

(** Each 20-row window of the detail view holds the 20 newest transactions
    of its direction, newest first. *)
Theorem address_detail_windows_newest st k :
  (exists rest, outgoing_txs st k ++ rest ≡ₚ outgoing_rows st k /\
     forall x y, x ∈ outgoing_txs st k -> y ∈ rest -> (timestamp y <= timestamp x)%Z) /\
  (exists rest, incoming_txs st k ++ rest ≡ₚ incoming_rows st k /\
     forall x y, x ∈ incoming_txs st k -> y ∈ rest -> (timestamp y <= timestamp x)%Z) /\
  Sorted newer_or_equal (outgoing_txs st k) /\ Sorted newer_or_equal (incoming_txs st k).
Proof.
  unfold outgoing_txs, incoming_txs.
  destruct (sort_by_timestamp_desc_top (outgoing_rows st k) 20) as (Ho1 & _ & Ho3 & Ho4).
  destruct (sort_by_timestamp_desc_top (incoming_rows st k) 20) as (Hi1 & _ & Hi3 & Hi4).
  split; [eexists; split; [exact Ho1|exact Ho4]|].
  split; [eexists; split; [exact Hi1|exact Hi4]|]. done.
Qed.

(** The transactions the detail view lists are the newest of the two
    windows, newest first, and each one was sent or received by the
    address. *)
Theorem address_detail_transactions_newest st address api now :
  match address_detail st address api now with
  | (st', _, inr ctx) =>
      (exists rest,
         ctx_transactions ctx ++ rest ≡ₚ outgoing_txs st' address ++ incoming_txs st' address /\
         forall x y, x ∈ ctx_transactions ctx -> y ∈ rest -> (timestamp y <= timestamp x)%Z) /\
      Sorted newer_or_equal (ctx_transactions ctx) /\
      Forall (fun t => references address t = true) (ctx_transactions ctx)
  | _ => True
  end.
Proof.
  destruct (address_detail st address api now) as [[st' evs] [x|ctx]] eqn:Hd; [done|].
  apply address_detail_context in Hd as (e & _ & ->). cbn [ctx_transactions detail_context_of].
  destruct (sort_by_timestamp_desc_top
              (outgoing_txs st' address ++ incoming_txs st' address) 20) as (H1 & _ & H3 & H4).
  split; [eexists; split; [exact H1|exact H4]|]. split; [exact H3|].
  apply Forall_forall. intros t Ht.
  apply elem_of_take_sub in Ht. rewrite sort_by_timestamp_desc_perm in Ht.
  unfold references. apply elem_of_app in Ht as [Ht|Ht].
  - apply window_rows in Ht. rewrite Ht, String.eqb_refl. done.
  - apply window_rows in Ht. rewrite Ht, String.eqb_refl. apply orb_true_r.
Qed.

(** When the address has at most 20 transactions counting both directions,
    the view lists its outgoing rows and its incoming rows together: a
    transfer from the address to itself is listed twice. *)
Theorem address_detail_small_history st address api now st' evs ctx :
  address_detail st address api now = (st', evs, inr ctx) ->
  (length (outgoing_rows st' address) + length (incoming_rows st' address) <= 20)%nat ->
  ctx_transactions ctx ≡ₚ outgoing_rows st' address ++ incoming_rows st' address.
Proof.
  intros Hd Hlen. apply address_detail_context in Hd as (e & _ & ->).
  cbn [ctx_transactions detail_context_of]. unfold outgoing_txs, incoming_txs.
  pose proof (Permutation_length (sort_by_timestamp_desc_perm (outgoing_rows st' address))).
  pose proof (Permutation_length (sort_by_timestamp_desc_perm (incoming_rows st' address))).
  rewrite (take_ge (sort_by_timestamp_desc (outgoing_rows _ _))) by lia.
  rewrite (take_ge (sort_by_timestamp_desc (incoming_rows _ _))) by lia.
  pose proof (sort_by_timestamp_desc_perm
                (sort_by_timestamp_desc (outgoing_rows st' address) ++
                 sort_by_timestamp_desc (incoming_rows st' address))) as Hp.
  rewrite take_ge.
  - rewrite Hp. by rewrite !sort_by_timestamp_desc_perm.
  - rewrite (Permutation_length Hp), length_app. lia.
Qed.

Lemma address_detail_small_history_witness :
  address_detail self_transfer_db "0xaaa" txlist_error 0 =
    (self_transfer_db, [], inr (detail_context_of self_transfer_db "0xaaa" (new_address_row 0))) /\
  outgoing_rows self_transfer_db "0xaaa" = [sample_tx "0xaaa" "0xaaa" 1700000001] /\
  incoming_rows self_transfer_db "0xaaa" = [sample_tx "0xaaa" "0xaaa" 1700000001] /\
  ctx_transactions (detail_context_of self_transfer_db "0xaaa" (new_address_row 0)) ≡ₚ
    outgoing_rows self_transfer_db "0xaaa" ++ incoming_rows self_transfer_db "0xaaa" /\
  ctx_transactions (detail_context_of self_transfer_db "0xaaa" (new_address_row 0)) =
    [sample_tx "0xaaa" "0xaaa" 1700000001; sample_tx "0xaaa" "0xaaa" 1700000001].
Proof.
  assert (Hd : address_detail self_transfer_db "0xaaa" txlist_error 0 =
    (self_transfer_db, [], inr (detail_context_of self_transfer_db "0xaaa" (new_address_row 0))))
    by (vm_compute; reflexivity).
  assert (Hl : (length (outgoing_rows self_transfer_db "0xaaa") +
                length (incoming_rows self_transfer_db "0xaaa") <= 20)%nat)
    by (vm_compute; lia).
  split; [exact Hd|]. split; [vm_compute; reflexivity|]. split; [vm_compute; reflexivity|].
  split; [exact (address_detail_small_history self_transfer_db "0xaaa" txlist_error 0 _ _ _ Hd Hl)|].
  vm_compute. reflexivity.
Defined.

(* ------------------------------------------------------------------ *)
(** ** The logged-in views *)

Module AppProps.
Import App.

Lemma add_address_form_clean_inr st data a l :
  add_address_form_clean st data = inr (a, l) ->
  address_field_clean (post_value data "address") = inr a /\
  label_field_clean (post_value data "label") = inr l /\ addresses st !! a = None.
Proof.
  unfold add_address_form_clean.
  destruct (address_field_clean _) as [ea|a'], (label_field_clean _) as [el|l'];
    simpl; try discriminate.
  destruct (addresses st !! a') eqn:Hs; simpl; [discriminate|].
  intros [= -> ->]. done.
Qed.

Lemma add_address_form_clean_inl st data errs :
  add_address_form_clean st data = inl errs -> errs <> [].
Proof.
  unfold add_address_form_clean.
  destruct (address_field_clean _) as [ea|a'], (label_field_clean _) as [el|l'];
    simpl; try (intros [= <-]; discriminate).
  destruct (addresses st !! a'); simpl; [intros [= <-]; discriminate|discriminate].
Qed.

Lemma add_address_form_clean_duplicate st data a e :
  address_field_clean (post_value data "address") = inr a ->
  addresses st !! a = Some e ->
  exists errs, add_address_form_clean st data = inl errs /\ ("address", NotUnique) ∈ errs.
Proof.
  intros Ha He. unfold add_address_form_clean. rewrite Ha, He. simpl.
  destruct (label_field_clean _); simpl; eexists; (split; [reflexivity|]).
  - apply elem_of_cons. right. apply list_elem_of_here.
  - apply list_elem_of_here.
Qed.

Lemma foldr_max_ge n l : n ∈ l -> (n <= foldr Nat.max 0 l)%nat.
Proof.
  induction l as [|x l IH]; intros Hn; [by apply elem_of_nil in Hn|].
  simpl. apply elem_of_cons in Hn as [->|Hn]; [lia|]. specialize (IH Hn). lia.
Qed.

Lemma fresh_watchlist_id_fresh m : m !! fresh_watchlist_id m = None.
Proof.
  destruct (m !! fresh_watchlist_id m) as [x|] eqn:Hx; [|done]. exfalso.
  apply elem_of_map_to_list in Hx.
  assert (Hin : fresh_watchlist_id m ∈ map fst (map_to_list m)).
  { apply list_elem_of_In, in_map_iff. exists (fresh_watchlist_id m, x).
    split; [done|]. by apply list_elem_of_In. }
  apply foldr_max_ge in Hin. unfold fresh_watchlist_id at 1 in Hin. lia.
Qed.

Lemma perm_filter_length {A} (f : A -> bool) l l' :
  l ≡ₚ l' -> length (List.filter f l) = length (List.filter f l').
Proof.
  induction 1 as [|x l l' _ IH|x y l|l l' l'' _ IH1 _ IH2]; simpl.
  - done.
  - destruct (f x); simpl; lia.
  - destruct (f x), (f y); simpl; lia.
  - lia.
Qed.

Lemma filter_map_to_list_insert {A} (f : nat * A -> bool) (m : gmap nat A) i x :
  m !! i = None ->
  length (List.filter f (map_to_list (<[i := x]> m))) =
  ((if f (i, x) then 1 else 0) + length (List.filter f (map_to_list m)))%nat.
Proof.
  intros Hi. rewrite (perm_filter_length f _ _ (map_to_list_insert m i x Hi)).
  simpl. by destruct (f (i, x)).
Qed.

Lemma in_filter_map_to_list {A} (f : nat * A -> bool) (m : gmap nat A) i x r :
  List.filter f (map_to_list m) = (i, x) :: r -> m !! i = Some x /\ f (i, x) = true.
Proof.
  intros Hf. assert (Hin : In (i, x) (List.filter f (map_to_list m))) by (rewrite Hf; by left).
  apply filter_In in Hin as [Hin Hfx]. split; [|done].
  apply elem_of_map_to_list, list_elem_of_In, Hin.
Qed.

(** What [get_or_create_watchlist] writes: nothing but, when no row
    matches, one new watchlist at an unused key. *)
Lemma get_or_create_watchlist_spec s u n d now s2 w :
  get_or_create_watchlist s u n d now = inr (s2, w) ->
  store s2 = store s /\ members s2 = members s /\ alerts s2 = alerts s /\
  (exists wl, watchlists s2 !! w = Some wl /\ watchlist_is u n (w, wl) = true) /\
  (watchlists s2 = watchlists s \/
   (List.filter (watchlist_is u n) (map_to_list (watchlists s)) = [] /\
    watchlists s !! w = None /\
    watchlists s2 = <[w := {| wl_user := u; wl_name := n; wl_description := d;
                              wl_created_at := now |}]> (watchlists s))).
Proof.
  unfold get_or_create_watchlist.
  destruct (List.filter (watchlist_is u n) (map_to_list (watchlists s))) as [|[i x] [|y r]] eqn:Hf.
  - intros [= <- <-]. simpl. split; [done|]. split; [done|]. split; [done|]. split.
    + eexists. split; [apply lookup_insert_eq|]. unfold watchlist_is. simpl.
      by rewrite Nat.eqb_refl, String.eqb_refl.
    + right. split; [done|]. split; [apply fresh_watchlist_id_fresh|done].
  - intros [= <- <-]. apply in_filter_map_to_list in Hf as [Hl Hw].
    split; [done|]. split; [done|]. split; [done|]. split; [by exists x|by left].
  - discriminate.
Qed.

Lemma get_or_create_watchlist_many s u n d now :
  (2 <= length (List.filter (watchlist_is u n) (map_to_list (watchlists s))))%nat ->
  get_or_create_watchlist s u n d now = inl MultipleObjectsReturned.
Proof.
  unfold get_or_create_watchlist.
  destruct (List.filter (watchlist_is u n) (map_to_list (watchlists s))) as [|[i x] [|y r]];
    simpl; [lia|lia|done].
Qed.

Lemma get_or_create_watchlist_few s u n d now :
  (length (List.filter (watchlist_is u n) (map_to_list (watchlists s))) <= 1)%nat ->
  exists s2 w, get_or_create_watchlist s u n d now = inr (s2, w).
Proof.
  unfold get_or_create_watchlist.
  destruct (List.filter (watchlist_is u n) (map_to_list (watchlists s))) as [|[i x] [|y r]];
    simpl; [eauto|eauto|lia].
Qed.

(** [@login_required]: an anonymous request to [add_address],
    [create_watchlist] or [dashboard] is redirected to the login page,
    without a write or a request to Etherscan. *)
Theorem login_required_anonymous s req api now :
  req_user req = None ->
  add_address s req api now = (s, [], RedirectToLogin) /\
  create_watchlist s req now = (s, [], RedirectToLogin) /\
  dashboard s req = (s, [], RedirectToLogin).
Proof. intros H. unfold add_address, create_watchlist, dashboard, login_required. by rewrite H. Qed.

Lemma login_required_anonymous_witness :
  req_user {| req_user := None; req_method := POST (list_to_map [("address", sample_eth)]) |} = None /\
  add_address app_empty {| req_user := None; req_method := POST (list_to_map [("address", sample_eth)]) |}
    (balance_ok "1") 0 = (app_empty, [], RedirectToLogin) /\
  create_watchlist app_empty {| req_user := None; req_method := POST (list_to_map [("address", sample_eth)]) |}
    0 = (app_empty, [], RedirectToLogin) /\
  dashboard app_empty {| req_user := None; req_method := POST (list_to_map [("address", sample_eth)]) |} =
    (app_empty, [], RedirectToLogin).
Proof.
  assert (H : req_user {| req_user := None;
                          req_method := POST (list_to_map [("address", sample_eth)]) |} = None)
    by reflexivity.
  split; [exact H|]. exact (login_required_anonymous app_empty _ (balance_ok "1") 0 H).
Defined.

(** A posted form that does not validate is rendered again with a
    non-empty list of errors; nothing is written and Etherscan is not
    asked. *)
Theorem add_address_invalid_form s req api now u data errs :
  req_user req = Some u -> req_method req = POST data ->
  add_address_form_clean (store s) data = inl errs ->
  errs <> [] /\ add_address s req api now = (s, [], RenderForm "add_address.html" errs).
Proof.
  intros Hu Hm Hf. split; [by eapply add_address_form_clean_inl|].
  unfold add_address, login_required. by rewrite Hu, Hm, Hf.
Qed.

Lemma add_address_invalid_form_witness :
  req_user (post_as 1 [("address", "0x123")]) = Some 1%nat /\
  req_method (post_as 1 [("address", "0x123")]) = POST (list_to_map [("address", "0x123")]) /\
  add_address_form_clean (store app_empty) (list_to_map [("address", "0x123")]) =
    inl [("address", FieldError InvalidFormat)] /\
  [("address", FieldError InvalidFormat)] <> [] /\
  add_address app_empty (post_as 1 [("address", "0x123")]) (balance_ok "1") 0 =
    (app_empty, [], RenderForm "add_address.html" [("address", FieldError InvalidFormat)]).
Proof.
  assert (Hu : req_user (post_as 1 [("address", "0x123")]) = Some 1%nat) by reflexivity.
  assert (Hm : req_method (post_as 1 [("address", "0x123")]) =
                 POST (list_to_map [("address", "0x123")])) by reflexivity.
  assert (Hf : add_address_form_clean (store app_empty) (list_to_map [("address", "0x123")]) =
                 inl [("address", FieldError InvalidFormat)]) by (vm_compute; reflexivity).
  split; [exact Hu|]. split; [exact Hm|]. split; [exact Hf|].
  exact (add_address_invalid_form app_empty _ (balance_ok "1") 0 _ _ _ Hu Hm Hf).
Defined.

(** An address that is already stored is refused by the form's uniqueness
    check, also when posted in another letter case (the field lowercases
    it first); nothing is written and Etherscan is not asked. *)
Theorem add_address_duplicate_rejected s req api now u data a e :
  req_user req = Some u -> req_method req = POST data ->
  address_field_clean (post_value data "address") = inr a ->
  addresses (store s) !! a = Some e ->
  exists errs, ("address", NotUnique) ∈ errs /\
    add_address s req api now = (s, [], RenderForm "add_address.html" errs).
Proof.
  intros Hu Hm Ha He.
  destruct (add_address_form_clean_duplicate (store s) data a e Ha He) as (errs & Hf & Hin).
  exists errs. split; [done|]. unfold add_address, login_required. by rewrite Hu, Hm, Hf.
Qed.

Lemma add_address_duplicate_rejected_witness :
  let s := set_store {| addresses := {[lower sample_eth := new_address_row 0]};
                        transactions := ∅ |} app_empty in
  req_user (post_as 1 [("address", sample_eth)]) = Some 1%nat /\
  req_method (post_as 1 [("address", sample_eth)]) = POST (list_to_map [("address", sample_eth)]) /\
  address_field_clean (post_value (list_to_map [("address", sample_eth)]) "address") =
    inr (lower sample_eth) /\
  addresses (store s) !! lower sample_eth = Some (new_address_row 0) /\
  exists errs, ("address", NotUnique) ∈ errs /\
    add_address s (post_as 1 [("address", sample_eth)]) (balance_ok "1") 0 =
      (s, [], RenderForm "add_address.html" errs).
Proof.
  intros s.
  assert (Hu : req_user (post_as 1 [("address", sample_eth)]) = Some 1%nat) by reflexivity.
  assert (Hm : req_method (post_as 1 [("address", sample_eth)]) =
                 POST (list_to_map [("address", sample_eth)])) by reflexivity.
  assert (Ha : address_field_clean (post_value (list_to_map [("address", sample_eth)]) "address") =
                 inr (lower sample_eth)) by (vm_compute; reflexivity).
  assert (He : addresses (store s) !! lower sample_eth = Some (new_address_row 0))
    by (vm_compute; reflexivity).
  split; [exact Hu|]. split; [exact Hm|]. split; [exact Ha|]. split; [exact He|].
  exact (add_address_duplicate_rejected s _ (balance_ok "1") 0 _ _ _ _ Hu Hm Ha He).
Defined.

Lemma member_add_has rows a w now :
  existsb (fun r => String.eqb (m_address r) a && (m_watchlist r =? w)%nat)
    (member_add rows a w now) = true.
Proof.
  unfold member_add. destruct (existsb _ rows) eqn:E; [done|].
  rewrite existsb_app. simpl. rewrite String.eqb_refl, Nat.eqb_refl. apply orb_true_r.
Qed.

(** A valid form, with at most one "Default" watchlist of the user and a
    successful balance answer: the view redirects to the dashboard after
    one balance request; the new address is stored with the posted label,
    the balance result / 10^18 and the current time, and it is on a
    "Default" watchlist of the user. *)
Theorem add_address_success s req api now u data a lbl n :
  req_user req = Some u -> req_method req = POST data ->
  add_address_form_clean (store s) data = inr (a, lbl) ->
  (length (List.filter (watchlist_is u "Default") (map_to_list (watchlists s))) <= 1)%nat ->
  bal_status (api a) = "1" ->
  decimal_of_string (bal_result (api a)) = Some n ->
  Z.abs n < 10 ^ 28 ->
  exists s' e w wl,
    add_address s req api now = (s', [GetBalance a], Redirect "dashboard") /\
    addresses (store s) !! a = None /\
    addresses (store s') !! a = Some e /\ label e = lbl /\
    (balance e == inject_Z n / inject_Z (10 ^ 18))%Q /\ last_updated e = now /\
    watchlists s' !! w = Some wl /\ wl_user wl = u /\ wl_name wl = "Default" /\
    existsb (fun r => String.eqb (m_address r) a && (m_watchlist r =? w)%nat) (members s') = true.
Proof.
  intros Hu Hm Hf Hc Hs Hd Hn.
  destruct (add_address_form_clean_inr _ _ _ _ Hf) as (_ & _ & Hnone).
  set (row := {| label := lbl; balance := 0%Q; last_updated := now; is_contract := false |}).
  set (s1 := set_store (set_addresses (<[a := row]> (addresses (store s))) (store s)) s).
  destruct (get_or_create_watchlist_few s1 u "Default" "Default watchlist" now Hc)
    as (s2 & w & Hg).
  destruct (get_or_create_watchlist_spec _ _ _ _ _ _ _ Hg)
    as (Hst & _ & _ & (wl & Hwl & Hwi) & _).
  unfold add_address, login_required. rewrite Hu, Hm, Hf. fold row s1. rewrite Hg.
  unfold update_address_balance. cbn [store set_members]. rewrite Hs, Hd. simpl.
  eexists _, _, w, wl. split; [reflexivity|]. split; [done|].
  simpl. split; [by rewrite lookup_insert_eq|]. simpl.
  split; [done|]. split; [by apply dec_div_pow10_exact|]. split; [done|].
  split; [done|]. unfold watchlist_is in Hwi. simpl in Hwi.
  apply andb_true_iff in Hwi as [Hwu Hwn]. apply Nat.eqb_eq in Hwu. apply String.eqb_eq in Hwn.
  split; [done|]. split; [done|]. apply member_add_has.
Qed.

Lemma add_address_success_witness :
  req_user (post_as 1 [("address", sample_eth); ("label", " cold wallet ")]) = Some 1%nat /\
  req_method (post_as 1 [("address", sample_eth); ("label", " cold wallet ")]) =
    POST (list_to_map [("address", sample_eth); ("label", " cold wallet ")]) /\
  add_address_form_clean (store app_empty)
    (list_to_map [("address", sample_eth); ("label", " cold wallet ")]) =
    inr (lower sample_eth, "cold wallet") /\
  (length (List.filter (watchlist_is 1 "Default") (map_to_list (watchlists app_empty))) <= 1)%nat /\
  bal_status (balance_ok "1500000000000000000" (lower sample_eth)) = "1" /\
  decimal_of_string (bal_result (balance_ok "1500000000000000000" (lower sample_eth))) =
    Some 1500000000000000000 /\
  Z.abs 1500000000000000000 < 10 ^ 28 /\
  exists s' e w wl,
    add_address app_empty (post_as 1 [("address", sample_eth); ("label", " cold wallet ")])
      (balance_ok "1500000000000000000") 9 =
      (s', [GetBalance (lower sample_eth)], Redirect "dashboard") /\
    addresses (store app_empty) !! lower sample_eth = None /\
    addresses (store s') !! lower sample_eth = Some e /\ label e = "cold wallet" /\
    (balance e == inject_Z 1500000000000000000 / inject_Z (10 ^ 18))%Q /\ last_updated e = 9 /\
    watchlists s' !! w = Some wl /\ wl_user wl = 1%nat /\ wl_name wl = "Default" /\
    existsb (fun r => String.eqb (m_address r) (lower sample_eth) && (m_watchlist r =? w)%nat)
      (members s') = true.
Proof.
  assert (Hu : req_user (post_as 1 [("address", sample_eth); ("label", " cold wallet ")]) =
                 Some 1%nat) by reflexivity.
  assert (Hm : req_method (post_as 1 [("address", sample_eth); ("label", " cold wallet ")]) =
                 POST (list_to_map [("address", sample_eth); ("label", " cold wallet ")]))
    by reflexivity.
  assert (Hf : add_address_form_clean (store app_empty)
                 (list_to_map [("address", sample_eth); ("label", " cold wallet ")]) =
               inr (lower sample_eth, "cold wallet")) by (vm_compute; reflexivity).
  assert (Hc : (length (List.filter (watchlist_is 1 "Default")
                          (map_to_list (watchlists app_empty))) <= 1)%nat)
    by (vm_compute; lia).
  assert (Hs : bal_status (balance_ok "1500000000000000000" (lower sample_eth)) = "1")
    by reflexivity.
  assert (Hd : decimal_of_string (bal_result (balance_ok "1500000000000000000" (lower sample_eth))) =
                 Some 1500000000000000000) by (vm_compute; reflexivity).
  assert (Hn : Z.abs 1500000000000000000 < 10 ^ 28) by (vm_compute; reflexivity).
  do 7 (split; [assumption|]).
  exact (add_address_success app_empty _ (balance_ok "1500000000000000000") 9 _ _ _ _ _
           Hu Hm Hf Hc Hs Hd Hn).
Defined.

(** A failed balance request after a valid form: the view raises, but the
    address row (balance 0) and its "Default" membership stay written, and
    posting the same form again is refused as a duplicate, for any answer
    of Etherscan. *)
Theorem add_address_api_failure_keeps_writes s req api now u data a lbl :
  req_user req = Some u -> req_method req = POST data ->
  add_address_form_clean (store s) data = inr (a, lbl) ->
  (length (List.filter (watchlist_is u "Default") (map_to_list (watchlists s))) <= 1)%nat ->
  bal_status (api a) <> "1" ->
  exists s' e w,
    add_address s req api now =
      (s', [GetBalance a], ServerError (Py (ValueError "Failed to fetch balance from Etherscan"))) /\
    addresses (store s') !! a = Some e /\ label e = lbl /\ balance e = 0%Q /\
    existsb (fun r => String.eqb (m_address r) a && (m_watchlist r =? w)%nat) (members s') = true /\
    owned_by s' u w = true /\
    forall api' now', exists errs, ("address", NotUnique) ∈ errs /\
      add_address s' req api' now' = (s', [], RenderForm "add_address.html" errs).
Proof.
  intros Hu Hm Hf Hc Hs.
  destruct (add_address_form_clean_inr _ _ _ _ Hf) as (Ha & _ & Hnone).
  set (row := {| label := lbl; balance := 0%Q; last_updated := now; is_contract := false |}).
  set (s1 := set_store (set_addresses (<[a := row]> (addresses (store s))) (store s)) s).
  destruct (get_or_create_watchlist_few s1 u "Default" "Default watchlist" now Hc)
    as (s2 & w & Hg).
  destruct (get_or_create_watchlist_spec _ _ _ _ _ _ _ Hg)
    as (Hst & _ & _ & (wl & Hwl & Hwi) & _).
  unfold add_address at 1, login_required at 1. rewrite Hu, Hm, Hf. fold row s1. rewrite Hg.
  unfold update_address_balance. cbn [store set_members]. apply String.eqb_neq in Hs.
  rewrite Hs. simpl.
  eexists _, row, w. split; [reflexivity|].
  assert (He : addresses (store s2) !! a = Some row) by (rewrite Hst; apply lookup_insert_eq).
  split; [exact He|]. split; [done|]. split; [done|]. split; [apply member_add_has|].
  split.
  - unfold owned_by. simpl. rewrite Hwl. unfold watchlist_is in Hwi. simpl in Hwi.
    by apply andb_true_iff in Hwi as [-> _].
  - intros api' now'.
    destruct (add_address_form_clean_duplicate (store s2) data a row Ha He) as (errs & Hf' & Hin).
    exists errs. split; [done|]. unfold add_address, login_required. rewrite Hu, Hm.
    simpl. by rewrite Hf'.
Qed.

Lemma add_address_api_failure_keeps_writes_witness :
  req_user (post_as 1 [("address", sample_eth)]) = Some 1%nat /\
  req_method (post_as 1 [("address", sample_eth)]) = POST (list_to_map [("address", sample_eth)]) /\
  add_address_form_clean (store app_empty) (list_to_map [("address", sample_eth)]) =
    inr (lower sample_eth, "") /\
  (length (List.filter (watchlist_is 1 "Default") (map_to_list (watchlists app_empty))) <= 1)%nat /\
  bal_status (balance_error (lower sample_eth)) <> "1" /\
  exists s' e w,
    add_address app_empty (post_as 1 [("address", sample_eth)]) balance_error 3 =
      (s', [GetBalance (lower sample_eth)],
       ServerError (Py (ValueError "Failed to fetch balance from Etherscan"))) /\
    addresses (store s') !! lower sample_eth = Some e /\ label e = "" /\ balance e = 0%Q /\
    existsb (fun r => String.eqb (m_address r) (lower sample_eth) && (m_watchlist r =? w)%nat)
      (members s') = true /\
    owned_by s' 1 w = true /\
    forall api' now', exists errs, ("address", NotUnique) ∈ errs /\
      add_address s' (post_as 1 [("address", sample_eth)]) api' now' =
        (s', [], RenderForm "add_address.html" errs).
Proof.
  assert (Hu : req_user (post_as 1 [("address", sample_eth)]) = Some 1%nat) by reflexivity.
  assert (Hm : req_method (post_as 1 [("address", sample_eth)]) =
                 POST (list_to_map [("address", sample_eth)])) by reflexivity.
  assert (Hf : add_address_form_clean (store app_empty) (list_to_map [("address", sample_eth)]) =
                 inr (lower sample_eth, "")) by (vm_compute; reflexivity).
  assert (Hc : (length (List.filter (watchlist_is 1 "Default")
                          (map_to_list (watchlists app_empty))) <= 1)%nat)
    by (vm_compute; lia).
  assert (Hs : bal_status (balance_error (lower sample_eth)) <> "1") by discriminate.
  do 5 (split; [assumption|]).
  exact (add_address_api_failure_keeps_writes app_empty _ balance_error 3 _ _ _ _
           Hu Hm Hf Hc Hs).
Defined.

(** With two "Default" watchlists of the user (which [create_watchlist]
    allows), a valid form saves the address and then fails in
    [get_or_create] with [MultipleObjectsReturned]: the address stays
    stored, on no watchlist, and Etherscan is not asked. *)
Theorem add_address_two_defaults s req api now u data a lbl :
  req_user req = Some u -> req_method req = POST data ->
  add_address_form_clean (store s) data = inr (a, lbl) ->
  (2 <= length (List.filter (watchlist_is u "Default") (map_to_list (watchlists s))))%nat ->
  add_address s req api now =
    (set_store (set_addresses (<[a := {| label := lbl; balance := 0%Q; last_updated := now;
                                         is_contract := false |}]> (addresses (store s)))
                              (store s)) s,
     [], ServerError MultipleObjectsReturned).
Proof.
  intros Hu Hm Hf Hc. unfold add_address, login_required. rewrite Hu, Hm, Hf.
  by rewrite get_or_create_watchlist_many.
Qed.

Lemma add_address_two_defaults_witness :
  req_user (post_as 1 [("address", sample_eth)]) = Some 1%nat /\
  req_method (post_as 1 [("address", sample_eth)]) = POST (list_to_map [("address", sample_eth)]) /\
  add_address_form_clean (store two_defaults) (list_to_map [("address", sample_eth)]) =
    inr (lower sample_eth, "") /\
  (2 <= length (List.filter (watchlist_is 1 "Default") (map_to_list (watchlists two_defaults))))%nat /\
  add_address two_defaults (post_as 1 [("address", sample_eth)]) (balance_ok "1") 4 =
    (set_store (set_addresses (<[lower sample_eth := {| label := ""; balance := 0%Q;
                                                         last_updated := 4; is_contract := false |}]>
                                (addresses (store two_defaults))) (store two_defaults)) two_defaults,
     [], ServerError MultipleObjectsReturned) /\
  members two_defaults = [].
Proof.
  assert (Hu : req_user (post_as 1 [("address", sample_eth)]) = Some 1%nat) by reflexivity.
  assert (Hm : req_method (post_as 1 [("address", sample_eth)]) =
                 POST (list_to_map [("address", sample_eth)])) by reflexivity.
  assert (Hf : add_address_form_clean (store two_defaults) (list_to_map [("address", sample_eth)]) =
                 inr (lower sample_eth, "")) by (vm_compute; reflexivity).
  assert (Hc : (2 <= length (List.filter (watchlist_is 1 "Default")
                               (map_to_list (watchlists two_defaults))))%nat)
    by (vm_compute; lia).
  do 4 (split; [assumption|]). split; [|vm_compute; reflexivity].
  exact (add_address_two_defaults two_defaults _ (balance_ok "1") 4 _ _ _ _ Hu Hm Hf Hc).
Defined.

Lemma add_address_watchlists s req api now :
  watchlists (add_address s req api now).1.1 = watchlists s \/
  exists u w,
    List.filter (watchlist_is u "Default") (map_to_list (watchlists s)) = [] /\
    watchlists s !! w = None /\
    watchlists (add_address s req api now).1.1 =
      <[w := {| wl_user := u; wl_name := "Default"; wl_description := "Default watchlist";
                wl_created_at := now |}]> (watchlists s).
Proof.
  unfold add_address, login_required.
  destruct (req_user req) as [u|]; [|by left]. destruct (req_method req) as [|data]; [by left|].
  destruct (add_address_form_clean _ _) as [errs|[a lbl]]; [by left|].
  destruct (get_or_create_watchlist _ _ _ _ _) as [e|[s2 w]] eqn:Hg; [by left|].
  apply get_or_create_watchlist_spec in Hg as (_ & _ & _ & _ & Hw).
  destruct (update_address_balance _ _ _ _ _) as [[[st4 row'] evs] o].
  assert (Hs2 : watchlists (set_store st4 (set_members (member_add (members s2) a w now) s2)) =
                watchlists s2) by reflexivity.
  destruct Hw as [Hw|(Hnil & Hfree & Hw)].
  - left. destruct o; simpl; exact Hw.
  - right. exists u, w. split; [exact Hnil|]. split; [exact Hfree|]. destruct o; simpl; exact Hw.
Qed.

(** [add_address] never makes a user's "Default" watchlists more than one:
    it creates one only when the user has none. *)
Theorem add_address_default_watchlists s req api now v :
  (length (List.filter (watchlist_is v "Default")
             (map_to_list (watchlists (add_address s req api now).1.1))) <=
   Nat.max 1 (length (List.filter (watchlist_is v "Default") (map_to_list (watchlists s)))))%nat.
Proof.
  destruct (add_address_watchlists s req api now) as [Hw|(u & w & Hnil & Hfree & Hw)].
  - rewrite Hw. lia.
  - rewrite Hw, filter_map_to_list_insert by exact Hfree.
    unfold watchlist_is at 1. simpl. destruct (Nat.eqb_spec u v) as [->|Huv]; simpl.
    + rewrite Hnil. simpl. lia.
    + lia.
Qed.

Lemma char_field_clean_inr required max_length raw v :
  char_field_clean required max_length raw = inr v ->
  v = "" /\ py_strip raw = "" /\ required = false \/
  v = py_strip raw /\ v <> "" /\
  match max_length with Some n => (String.length v <= n)%nat | None => True end /\
  existsb (fun c => (nat_of_ascii c =? 0)%nat) (list_ascii_of_string v) = false.
Proof.
  unfold char_field_clean.
  destruct (String.eqb_spec (py_strip raw) "") as [He|Hne].
  - destruct required; [discriminate|]. intros [= <-]. by left.
  - destruct (match max_length with Some n => _ | None => false end) eqn:Hm; [discriminate|].
    destruct (existsb _ _) eqn:Hn; [discriminate|]. intros [= <-]. right.
    split; [done|]. split; [done|]. split; [|done].
    destruct max_length as [n|]; [|done]. apply Nat.ltb_ge in Hm. exact Hm.
Qed.

(** [create_watchlist] on a posted form: a valid one adds a watchlist of the
    user at an unused key, named by the stripped, non-empty posted name of
    at most 255 characters, and redirects to the dashboard; an invalid one
    is rendered again with its errors and nothing is written. No name is
    refused for being in use. *)
Theorem create_watchlist_post s req now u data :
  req_user req = Some u -> req_method req = POST data ->
  match create_watchlist_form_clean data with
  | inl errs =>
      errs <> [] /\ create_watchlist s req now = (s, [], RenderForm "create_watchlist.html" errs)
  | inr (n, d) =>
      exists w, watchlists s !! w = None /\
        create_watchlist s req now =
          (set_watchlists (<[w := {| wl_user := u; wl_name := n; wl_description := d;
                                     wl_created_at := now |}]> (watchlists s)) s,
           [], Redirect "dashboard") /\
        n = py_strip (post_value data "name") /\ n <> "" /\ (String.length n <= 255)%nat
  end.
Proof.
  intros Hu Hm. unfold create_watchlist, login_required. rewrite Hu, Hm.
  destruct (create_watchlist_form_clean data) as [errs|[n d]] eqn:Hf.
  - split; [|done]. unfold create_watchlist_form_clean in Hf.
    destruct (char_field_clean true _ _) as [en|n], (char_field_clean false _ _) as [ed|d];
      simplify_eq/=; discriminate.
  - exists (fresh_watchlist_id (watchlists s)). split; [apply fresh_watchlist_id_fresh|].
    split; [done|]. unfold create_watchlist_form_clean in Hf.
    destruct (char_field_clean true _ _) as [en|n'] eqn:Hn, (char_field_clean false _ _);
      try discriminate.
    injection Hf as <- <-.
    apply char_field_clean_inr in Hn as [(_ & _ & Hr)|(Hv & Hne & Hl & _)]; [discriminate|].
    done.
Qed.

Lemma create_watchlist_post_witness :
  req_user (post_as 1 [("name", " Default ")]) = Some 1%nat /\
  req_method (post_as 1 [("name", " Default ")]) = POST (list_to_map [("name", " Default ")]) /\
  create_watchlist_form_clean (list_to_map [("name", " Default ")]) = inr ("Default", "") /\
  exists w, watchlists app_empty !! w = None /\
    create_watchlist app_empty (post_as 1 [("name", " Default ")]) 0 =
      (set_watchlists (<[w := {| wl_user := 1; wl_name := "Default"; wl_description := "";
                                 wl_created_at := 0 |}]> (watchlists app_empty)) app_empty,
       [], Redirect "dashboard") /\
    "Default" = py_strip (post_value (list_to_map [("name", " Default ")]) "name") /\
    "Default" <> "" /\ (String.length "Default" <= 255)%nat.
Proof.
  assert (Hu : req_user (post_as 1 [("name", " Default ")]) = Some 1%nat) by reflexivity.
  assert (Hm : req_method (post_as 1 [("name", " Default ")]) =
                 POST (list_to_map [("name", " Default ")])) by reflexivity.
  assert (Hf : create_watchlist_form_clean (list_to_map [("name", " Default ")]) =
                 inr ("Default", "")) by (vm_compute; reflexivity).
  pose proof (create_watchlist_post app_empty _ 0 _ _ Hu Hm) as H. rewrite Hf in H.
  split; [exact Hu|]. split; [exact Hm|]. split; [exact Hf|]. exact H.
Defined.

Lemma add_address_redirect_shape s req api now u data s' evs :
  req_user req = Some u -> req_method req = POST data ->
  add_address s req api now = (s', evs, Redirect "dashboard") ->
  exists a e w wl,
    addresses (store s) !! a = None /\
    addresses (store s') = <[a := e]> (addresses (store s)) /\
    members s' = member_add (members s) a w now /\
    watchlists s' !! w = Some wl /\ wl_user wl = u /\
    (watchlists s' = watchlists s \/
     (watchlists s !! w = None /\ watchlists s' = <[w := wl]> (watchlists s))).
Proof.
  intros Hu Hm. unfold add_address, login_required. rewrite Hu, Hm.
  destruct (add_address_form_clean _ _) as [errs|[a lbl]] eqn:Hf; [discriminate|].
  destruct (add_address_form_clean_inr _ _ _ _ Hf) as (_ & _ & Hnone).
  destruct (get_or_create_watchlist _ _ _ _ _) as [e|[s2 w]] eqn:Hg; [discriminate|].
  destruct (get_or_create_watchlist_spec _ _ _ _ _ _ _ Hg)
    as (Hst & Hmem & _ & (wl & Hwl & Hwi) & Hw).
  unfold update_address_balance.
  destruct (String.eqb _ _); [|discriminate].
  destruct (decimal_of_string _) as [wei|]; [|discriminate].
  intros [= <- _]. simpl.
  unfold watchlist_is in Hwi. simpl in Hwi. apply andb_true_iff in Hwi as [Hwu _].
  apply Nat.eqb_eq in Hwu.
  eexists a, _, w, wl. split; [exact Hnone|]. split.
  { rewrite Hst. simpl. apply insert_insert_eq. }
  split; [by rewrite Hmem|]. split; [done|]. split; [done|].
  destruct Hw as [Hw|(_ & Hfree & Hw)]; [by left|]. right. split; [done|].
  rewrite Hw. simpl. rewrite Hw in Hwl. rewrite lookup_insert_eq in Hwl. by injection Hwl as ->.
Qed.

Lemma existsb_ext_forall {A} (f g : A -> bool) l :
  Forall (fun x => f x = g x) l -> existsb f l = existsb g l.
Proof. induction 1 as [|x l Hx _ IH]; simpl; [done|]. by rewrite Hx, IH. Qed.

Lemma sum_perm (l l' : list Q) : l ≡ₚ l' -> (fold_right Qplus 0 l == fold_right Qplus 0 l')%Q.
Proof.
  induction 1 as [|x l l' _ IH|x y l|l l' l'' _ IH1 _ IH2]; simpl.
  - reflexivity.
  - by rewrite IH.
  - ring.
  - by rewrite IH1.
Qed.

Lemma default_sql_sum l : default 0%Q (sql_sum l) = fold_right Qplus 0%Q l.
Proof. by destruct l. Qed.

Lemma existsb_none_with {A} (f : A -> bool) l :
  Forall (fun x => f x = false) l -> existsb f l = false.
Proof. induction 1 as [|x l Hx _ IH]; simpl; [done|]. by rewrite Hx, IH. Qed.

(** How the dashboard's address set changes when one address [a], stored
    in neither state before, is written: membership of the other addresses
    is unchanged. *)
Lemma user_addresses_insert s s' v a e :
  addresses (store s) !! a = None ->
  addresses (store s') = <[a := e]> (addresses (store s)) ->
  (forall k, k <> a ->
     existsb (fun r => String.eqb (m_address r) k && owned_by s' v (m_watchlist r)) (members s') =
     existsb (fun r => String.eqb (m_address r) k && owned_by s v (m_watchlist r)) (members s)) ->
  user_addresses s' v =
    if existsb (fun r => String.eqb (m_address r) a && owned_by s' v (m_watchlist r)) (members s')
    then <[a := e]> (user_addresses s v) else user_addresses s v.
Proof.
  intros Hnone Hadd HP. unfold user_addresses. rewrite Hadd.
  assert (Hext : filter (fun kv : string * EthereumAddress =>
                   existsb (fun r => String.eqb (m_address r) kv.1 && owned_by s' v (m_watchlist r))
                     (members s') = true) (addresses (store s)) =
                 filter (fun kv : string * EthereumAddress =>
                   existsb (fun r => String.eqb (m_address r) kv.1 && owned_by s v (m_watchlist r))
                     (members s) = true) (addresses (store s))).
  { apply map_filter_ext. intros i x Hi. simpl. rewrite HP; [done|]. intros ->. congruence. }
  destruct (existsb _ (members s')) eqn:E.
  - rewrite map_filter_insert_True by (simpl; exact E). by rewrite Hext.
  - rewrite map_filter_insert_False by (simpl; rewrite E; discriminate).
    by rewrite delete_id.
Qed.

(** After a successful [add_address] by user [u], the dashboard of [u]
    counts one more address and its total balance grows by the balance of
    the new address; the totals of every other user are unchanged. The
    hypotheses are the foreign keys of the membership rows. *)
Theorem add_address_dashboard_totals s req api now u data s' evs :
  req_user req = Some u -> req_method req = POST data ->
  Forall (fun r => is_Some (watchlists s !! m_watchlist r)) (members s) ->
  Forall (fun r => is_Some (addresses (store s) !! m_address r)) (members s) ->
  add_address s req api now = (s', evs, Redirect "dashboard") ->
  exists a e,
    addresses (store s) !! a = None /\ addresses (store s') !! a = Some e /\
    total_addresses (dashboard_of s' u) = S (total_addresses (dashboard_of s u)) /\
    (total_balance (dashboard_of s' u) == total_balance (dashboard_of s u) + balance e)%Q /\
    forall v, v <> u ->
      total_addresses (dashboard_of s' v) = total_addresses (dashboard_of s v) /\
      total_balance (dashboard_of s' v) = total_balance (dashboard_of s v).
Proof.
  intros Hu Hm Hfk_w Hfk_a Hd.
  destruct (add_address_redirect_shape _ _ _ _ _ _ _ _ Hu Hm Hd)
    as (a & e & w & wl & Hnone & Hadd & Hmem & Hwl & Hwu & Hw).
  assert (Hown : forall v r, r ∈ members s ->
            owned_by s' v (m_watchlist r) = owned_by s v (m_watchlist r)).
  { intros v r Hr. unfold owned_by. destruct Hw as [Hw|(Hfree & Hw)]; [by rewrite Hw|].
    rewrite Hw. rewrite Forall_forall in Hfk_w. destruct (Hfk_w r Hr) as [x Hx].
    rewrite lookup_insert_ne; [done|]. intros Heq. rewrite <- Heq in Hx. congruence. }
  assert (Hno : forall g : nat -> bool,
            existsb (fun r => String.eqb (m_address r) a && g (m_watchlist r)) (members s) = false).
  { intros g. apply existsb_none_with, Forall_forall. intros r Hr.
    rewrite Forall_forall in Hfk_a. destruct (Hfk_a r Hr) as [x Hx].
    destruct (String.eqb_spec (m_address r) a) as [Heq|]; [|done]. congruence. }
  assert (Hmem' : members s' =
            members s ++ [{| m_address := a; m_watchlist := w; m_added_at := now; m_notes := "" |}]).
  { rewrite Hmem. unfold member_add. by rewrite (Hno (fun x => (x =? w)%nat)). }
  assert (Hold : forall v k, k <> a ->
    existsb (fun r => String.eqb (m_address r) k && owned_by s' v (m_watchlist r)) (members s') =
    existsb (fun r => String.eqb (m_address r) k && owned_by s v (m_watchlist r)) (members s)).
  { intros v k Hk. rewrite Hmem', existsb_app. simpl.
    rewrite (proj2 (String.eqb_neq a k)) by congruence. simpl. rewrite orb_false_r.
    apply existsb_ext_forall, Forall_forall. intros r Hr. by rewrite Hown. }
  assert (Hnew : forall v,
    existsb (fun r => String.eqb (m_address r) a && owned_by s' v (m_watchlist r)) (members s') =
    (wl_user wl =? v)%nat).
  { intros v. rewrite Hmem', existsb_app, Hno. simpl. rewrite String.eqb_refl.
    unfold owned_by. rewrite Hwl. simpl. apply orb_false_r. }
  assert (Hfresh : forall v, user_addresses s v !! a = None).
  { intros v. apply map_lookup_filter_None_2. by left. }
  exists a, e. split; [done|]. split; [rewrite Hadd; apply lookup_insert_eq|].
  pose proof (user_addresses_insert s s' u a e Hnone Hadd (Hold u)) as Hua.
  rewrite Hnew, Hwu, Nat.eqb_refl in Hua.
  unfold dashboard_of. cbn [total_addresses total_balance]. rewrite Hua.
  split; [by apply map_size_insert_None|]. split.
  - rewrite !default_sql_sum.
    rewrite (sum_perm _ _ (Permutation_map _ (map_to_list_insert _ a e (Hfresh u)))).
    simpl. apply Qplus_comm.
  - intros v Hv. pose proof (user_addresses_insert s s' v a e Hnone Hadd (Hold v)) as Hva.
    rewrite Hnew in Hva. rewrite Hwu in Hva.
    rewrite (proj2 (Nat.eqb_neq u v)) in Hva by congruence. by rewrite Hva.
Qed.

Lemma add_address_dashboard_totals_witness :
  let req := post_as 1 [("address", sample_eth)] in
  let api := balance_ok "2000000000000000000" in
  req_user req = Some 1%nat /\
  req_method req = POST (list_to_map [("address", sample_eth)]) /\
  Forall (fun r => is_Some (watchlists app_empty !! m_watchlist r)) (members app_empty) /\
  Forall (fun r => is_Some (addresses (store app_empty) !! m_address r)) (members app_empty) /\
  add_address app_empty req api 5 =
    ((add_address app_empty req api 5).1.1, [GetBalance (lower sample_eth)], Redirect "dashboard") /\
  (exists a e,
    addresses (store app_empty) !! a = None /\
    addresses (store (add_address app_empty req api 5).1.1) !! a = Some e /\
    total_addresses (dashboard_of (add_address app_empty req api 5).1.1 1) =
      S (total_addresses (dashboard_of app_empty 1)) /\
    (total_balance (dashboard_of (add_address app_empty req api 5).1.1 1) ==
       total_balance (dashboard_of app_empty 1) + balance e)%Q /\
    forall v, v <> 1%nat ->
      total_addresses (dashboard_of (add_address app_empty req api 5).1.1 v) =
        total_addresses (dashboard_of app_empty v) /\
      total_balance (dashboard_of (add_address app_empty req api 5).1.1 v) =
        total_balance (dashboard_of app_empty v)) /\
  total_addresses (dashboard_of (add_address app_empty req api 5).1.1 1) = 1%nat /\
  (total_balance (dashboard_of (add_address app_empty req api 5).1.1 1) == 2)%Q.
Proof.
  intros req api.
  assert (Hu : req_user req = Some 1%nat) by reflexivity.
  assert (Hm : req_method req = POST (list_to_map [("address", sample_eth)])) by reflexivity.
  assert (Hw : Forall (fun r => is_Some (watchlists app_empty !! m_watchlist r)) (members app_empty))
    by constructor.
  assert (Ha : Forall (fun r => is_Some (addresses (store app_empty) !! m_address r))
                 (members app_empty)) by constructor.
  assert (Hd : add_address app_empty req api 5 =
    ((add_address app_empty req api 5).1.1, [GetBalance (lower sample_eth)], Redirect "dashboard"))
    by (vm_compute; reflexivity).
  do 5 (split; [assumption|]).
  split; [exact (add_address_dashboard_totals app_empty req api 5 _ _ _ _ Hu Hm Hw Ha Hd)|].
  split; vm_compute; reflexivity.
Defined.

(** What a valid [AddAddressForm] hands to the view: the posted address
    stripped and lowercased, in the "0x" + 40 hex digits shape and not yet
    stored, and the posted label stripped, of at most 100 characters. *)
Theorem add_address_form_valid_fields st data a l :
  add_address_form_clean st data = inr (a, l) ->
  a = lower (py_strip (post_value data "address")) /\ is_eth_address (py_strip (post_value data "address")) = true /\
  addresses st !! a = None /\
  l = py_strip (post_value data "label") /\ (String.length l <= 100)%nat.
Proof.
  intros Hf. destruct (add_address_form_clean_inr _ _ _ _ Hf) as (Ha & Hl & Hnone).
  split; [|split; [|split; [done|]]].
  - unfold address_field_clean in Ha.
    destruct (String.eqb _ _); [discriminate|]. destruct (_ <? _)%nat; [discriminate|].
    destruct (existsb _ _); [discriminate|]. unfold clean_address in Ha.
    destruct (re_match_eth _); [|discriminate]. by injection Ha as <-.
  - unfold address_field_clean in Ha.
    destruct (String.eqb _ _) eqn:He; [discriminate|].
    destruct (42 <? _)%nat eqn:Hlen; [discriminate|].
    destruct (existsb _ _); [discriminate|]. unfold clean_address in Ha.
    destruct (re_match_eth _) eqn:Hre; [|discriminate].
    apply Nat.ltb_ge in Hlen. unfold re_match_eth in Hre. unfold is_eth_address.
    destruct (strip_0x _) as [rest|] eqn:Hs; [|discriminate].
    apply strip_0x_length in Hs. rewrite <- (string_of_list_ascii_of_string (py_strip _)), length_string_of_list_ascii in Hlen.
    apply andb_true_iff in Hre as [Hre _]. apply andb_true_iff in Hre as [H40 Hhex].
    apply Nat.eqb_eq in H40. rewrite length_take in H40.
    assert (Hr : length rest = 40%nat) by lia.
    rewrite take_ge in Hhex by lia. by rewrite Hr, Hhex.
  - unfold label_field_clean in Hl.
    apply char_field_clean_inr in Hl as [(-> & Hs & _)|(-> & _ & Hlen & _)].
    + split; [by rewrite Hs|simpl; lia].
    + split; [done|exact Hlen].
Qed.

Lemma add_address_form_valid_fields_witness :
  add_address_form_clean empty_db
    (list_to_map [("address", String.append " " sample_eth); ("label", "  cold wallet")]) =
    inr (lower sample_eth, "cold wallet") /\
  lower sample_eth =
    lower (py_strip (post_value (list_to_map [("address", String.append " " sample_eth);
                                              ("label", "  cold wallet")]) "address")) /\
  is_eth_address (py_strip (post_value (list_to_map [("address", String.append " " sample_eth);
                                                     ("label", "  cold wallet")]) "address")) = true /\
  addresses empty_db !! lower sample_eth = None /\
  "cold wallet" = py_strip (post_value (list_to_map [("address", String.append " " sample_eth);
                                                     ("label", "  cold wallet")]) "label") /\
  (String.length "cold wallet" <= 100)%nat.
Proof.
  assert (Hf : add_address_form_clean empty_db
                 (list_to_map [("address", String.append " " sample_eth); ("label", "  cold wallet")]) =
               inr (lower sample_eth, "cold wallet")) by (vm_compute; reflexivity).
  split; [exact Hf|]. exact (add_address_form_valid_fields _ _ _ _ Hf).
Defined.

End AppProps.
